(** * openVO: the OAK-D camera wrapper ([src/openVO/oakd/camera.py])

    A shallow embedding of the class [OAK_Camera]: its constructor, the
    frame accessors, the pipeline builders [_create_cam_rgb] and
    [_create_stereo], the acquisition thread body [_target] and
    [compute_3d].

    A Python instance is its attribute dictionary: reading an attribute that
    was never assigned raises [AttributeError].  The calls made to the device
    are recorded in a log, in the order the code makes them.  NumPy, OpenCV
    and the device are outside the repository: their operations are the
    members of the class [Backend] and of the record [CalibrationHandler]
    below, and the frames the device delivers are an input of the loop. *)

From Stdlib Require Import ZArith QArith.
From stdpp Require Import gmap strings list.

Local Open Scope Z_scope.
Local Open Scope string_scope.
Local Open Scope list_scope.

(** ** Data *)

(** [dai.CameraBoardSocket] *)
Inductive socket := RGB | LEFT | RIGHT.

(** A frame as [getCvFrame] hands it out: rows of pixel values. *)
Definition frame := list (list Z).

(** The numeric primitives the class takes from Python, NumPy and OpenCV.
    [num] is the carrier of the floating-point numbers. *)
Class Backend (num : Type) := {
  (** the float with the value of an integer literal *)
  of_int : Z → num;
  (** unary minus *)
  fneg : num → num;
  (** [a / b] for a divisor that is not zero *)
  fdiv : num → num → num;
  (** [b == 0.0] *)
  is_zero : num → bool;
  (** storing a number in single precision, [np.float32] *)
  float32 : num → num;
  (** [np.matmul] *)
  np_matmul : list (list num) → list (list num) → list (list num);
  (** [np.linalg.inv]; [None] when NumPy raises [LinAlgError] *)
  np_linalg_inv : list (list num) → option (list (list num));
  (** [cv2.reprojectImageTo3D] *)
  reprojectImageTo3D : frame → list (list num) → list (list (num * num * num));
}.

(** The exceptions the modelled code can raise. *)
Inductive exn :=
| AttributeError (name : string)
| TypeError (name : string)
| KeyError (key : string)
| IndexError
| ZeroDivisionError
| LinAlgError
| NotImplementedError (width height : Z).

(** What the code asks of the device, in order. *)
Inductive event :=
| EvDeviceOpen
| EvReadCalibration
| EvGetCameraIntrinsics (s : socket) (width height : Z)
| EvGetDistortionCoefficients (s : socket)
| EvGetFov (s : socket)
| EvGetStereoLeftRectificationRotation
| EvGetStereoRightRectificationRotation
| EvGetBaselineDistance
| EvDeviceClose
| EvPipelineDeviceOpen
| EvGetOutputQueue (name : string) (maxSize : Z) (blocking : bool)
| EvQueueGet (name : string)
| EvPipelineDeviceClose.

Global Instance socket_eq_dec : EqDecision socket.
Proof. solve_decision. Defined.
Global Instance event_eq_dec : EqDecision event.
Proof. solve_decision. Defined.

(** The nodes of a [dai.Pipeline].  A field is [None] until its setter is
    called. *)
Inductive color_resolution := THE_1080_P | THE_4_K.
Inductive mono_resolution := THE_720_P.
Inductive preset_mode := HIGH_DENSITY.
Inductive median_filter := KERNEL_7x7.

Record color_camera := {
  cc_socket : option socket;
  cc_resolution : option color_resolution;
  cc_video_size : option (Z * Z);
}.

Record mono_camera := {
  mc_socket : option socket;
  mc_resolution : option mono_resolution;
}.

Record xlink_out := {
  xo_stream : option string;
  xo_blocking : option bool;
  xo_queue_size : option Z;
}.

Record post_processing := {
  speckle_enable : bool;
  speckle_range : Z;
  temporal_enable : bool;
  spatial_enable : bool;
  spatial_hole_filling_radius : Z;
  spatial_num_iterations : Z;
  threshold_min_range : Z;
  threshold_max_range : Z;
  decimation_factor : Z;
}.

Record stereo_depth := {
  sd_preset : option preset_mode;
  sd_median : option median_filter;
  sd_lr_check : option bool;
  sd_extended_disparity : option bool;
  sd_subpixel : option bool;
  sd_post_processing : option post_processing;
}.

Inductive pnode :=
| ColorCamera (c : color_camera)
| MonoCamera (m : mono_camera)
| StereoDepth (d : stereo_depth)
| XLinkOut (x : xlink_out).

(** [a.out.link(b.inp)]: nodes are named by their position in the pipeline. *)
Record link := {
  link_from : nat; link_output : string;
  link_to : nat; link_input : string;
}.

(** A message taken from an output queue, or the [None] a queue hands out. *)
Inductive message :=
| ImgFrame (f : frame)
| NoMessage.

(** What [queue.get()] does at a queue with no message ready is depthai's
    business: it waits for one.  The second behaviour, handing out [None]
    at once, is kept beside it so that results on an empty queue do not rest
    on that reading. *)
Inductive get_behaviour := GetWaits | GetReturnsNone.

Section Camera.
Context {num : Type} `{Backend num}.

(** A NumPy array of rank two, by rows. *)
Local Abbreviation matrix := (list (list num)).

(** Python values held by the instance attributes. *)
Inductive value :=
| VNone
| VBool (b : bool)
| VInt (z : Z)
| VFloat (x : num)
| VVector (v : list num)
| VArray (a : matrix)
| VFrame (f : frame)
| VPoints (p : list (list (num * num * num))).

(** [calibData], the object returned by [device.readCalibration()]. *)
Record CalibrationHandler := {
  getCameraIntrinsics : socket → Z → Z → matrix;
  getDistortionCoefficients : socket → list num;
  getFov : socket → num;
  getStereoLeftRectificationRotation : matrix;
  getStereoRightRectificationRotation : matrix;
  getBaselineDistance : num;
}.

(** The arguments of the constructor. *)
Record args := {
  rgb_size : Z * Z;
  mono_size : Z * Z;
  extended_disparity : bool;
  subpixel : bool;
  lr_check : bool;
}.

(** [rgb_size=(1920, 1080), mono_size=(1280, 720)], all flags [True] *)
Definition default_args : args :=
  {| rgb_size := (1920, 1080); mono_size := (1280, 720);
     extended_disparity := true; subpixel := true; lr_check := true |}.

(** The instance and the world around it: [attrs] is the instance
    dictionary of the data attributes, [nodes] is [self._nodes] (a dict, in
    insertion order), [pipeline] and [links] are [self._pipeline], [log] is
    what the device has been asked so far, [lock] tells whether
    [self._data_lock] is held.  The thread objects hold no data and are left
    out. *)
Record state := {
  attrs : gmap string value;
  nodes : list (string * option (nat * option nat));
  pipeline : list pnode;
  links : list link;
  log : list event;
  lock : bool;
}.

Definition empty_state : state :=
  {| attrs := ∅; nodes := []; pipeline := []; links := []; log := [];
     lock := false |}.

(** ** Effects: state, exceptions, and a thread that waits *)

Inductive outcome (A : Type) :=
| Done (a : A) (s : state)
| Raised (e : exn) (s : state)
| Waiting (on : string) (s : state).
Global Arguments Done {A} a s.
Global Arguments Raised {A} e s.
Global Arguments Waiting {A} on s.

Definition outcome_state {A} (o : outcome A) : state :=
  match o with Done _ s | Raised _ s | Waiting _ s => s end.

Definition M (A : Type) := state → outcome A.

Global Instance M_ret : MRet M := λ A a s, Done a s.
Global Instance M_bind : MBind M := λ A B k m s,
  match m s with
  | Done a s' => k a s'
  | Raised e s' => Raised e s'
  | Waiting q s' => Waiting q s'
  end.

Definition raise {A} (e : exn) : M A := λ s, Raised e s.
Definition wait {A} (on : string) : M A := λ s, Waiting on s.

(** [try: body finally: cleanup], as a [with] block leaves its device. *)
Definition finally {A} (body : M A) (cleanup : M unit) : M A := λ s,
  match body s with
  | Done a s' => match cleanup s' with
                 | Done _ s'' => Done a s''
                 | Raised e s'' => Raised e s''
                 | Waiting q s'' => Waiting q s''
                 end
  | Raised e s' => match cleanup s' with
                   | Done _ s'' => Raised e s''
                   | Raised e' s'' => Raised e' s''
                   | Waiting q s'' => Waiting q s''
                   end
  | Waiting q s' => Waiting q s'
  end.

Definition set_attrs (f : gmap string value → gmap string value) (s : state) : state :=
  {| attrs := f (attrs s); nodes := nodes s; pipeline := pipeline s;
     links := links s; log := log s; lock := lock s |}.
Definition set_nodes f (s : state) : state :=
  {| attrs := attrs s; nodes := f (nodes s); pipeline := pipeline s;
     links := links s; log := log s; lock := lock s |}.
Definition set_pipeline f (s : state) : state :=
  {| attrs := attrs s; nodes := nodes s; pipeline := f (pipeline s);
     links := links s; log := log s; lock := lock s |}.
Definition set_links f (s : state) : state :=
  {| attrs := attrs s; nodes := nodes s; pipeline := pipeline s;
     links := f (links s); log := log s;
     lock := lock s |}.
Definition set_log f (s : state) : state :=
  {| attrs := attrs s; nodes := nodes s; pipeline := pipeline s;
     links := links s; log := f (log s);
     lock := lock s |}.
Definition set_lock (b : bool) (s : state) : state :=
  {| attrs := attrs s; nodes := nodes s; pipeline := pipeline s;
     links := links s; log := log s; lock := b |}.

(** [self.name] *)
Definition getattr (name : string) : M value := λ s,
  match attrs s !! name with
  | Some v => Done v s
  | None => Raised (AttributeError name) s
  end.

(** [self.name = v] *)
Definition setattr (name : string) (v : value) : M unit := λ s,
  Done () (set_attrs (insert name v) s).

Definition emit (e : event) : M unit := λ s,
  Done () (set_log (λ l, l ++ [e]) s).

Definition as_int (name : string) (v : value) : M Z :=
  match v with VInt z => mret z | _ => raise (TypeError name) end.
Definition as_bool (name : string) (v : value) : M bool :=
  match v with VBool b => mret b | _ => raise (TypeError name) end.
Definition as_float (name : string) (v : value) : M num :=
  match v with VFloat x => mret x | _ => raise (TypeError name) end.
Definition as_array (name : string) (v : value) : M matrix :=
  match v with VArray a => mret a | _ => raise (TypeError name) end.

Definition getattr_int (name : string) : M Z := getattr name ≫= as_int name.
Definition getattr_bool (name : string) : M bool := getattr name ≫= as_bool name.
Definition getattr_float (name : string) : M num := getattr name ≫= as_float name.
Definition getattr_array (name : string) : M matrix := getattr name ≫= as_array name.

(** The entry of an array at row [i] and column [j], when it has one. *)
Definition entry (a : matrix) (i j : nat) : option num := a !! i ≫= (.!! j).

(** [a[i, j]] *)
Definition index2 (a : matrix) (i j : nat) : M num :=
  match entry a i j with
  | Some x => mret x
  | None => raise IndexError
  end.

(** [a / b] on Python floats *)
Definition py_div (a b : num) : M num :=
  if is_zero b then raise ZeroDivisionError else mret (fdiv a b).

(** [np.linalg.inv(a)] *)
Definition linalg_inv (a : matrix) : M matrix :=
  match np_linalg_inv a with
  | Some a' => mret a'
  | None => raise LinAlgError
  end.

(** [np.float32(rows)] *)
Definition np_float32 (rows : matrix) : matrix := map (map float32) rows.

(** [self._pipeline = dai.Pipeline()], [self._nodes = {}] and
    [self._data_lock = Lock()] *)
Definition new_pipeline : M unit := λ s,
  Done () (set_links (λ _, []) (set_pipeline (λ _, []) s)).
Definition new_nodes : M unit := λ s, Done () (set_nodes (λ _, []) s).
Definition new_lock : M unit := λ s, Done () (set_lock false s).

(** ** The constructor *)

Section WithCalibration.
Variable calibData : CalibrationHandler.

Definition query_intrinsics (s : socket) (w h : Z) : M matrix :=
  emit (EvGetCameraIntrinsics s w h) ;;
  mret (getCameraIntrinsics calibData s w h).

Definition query_distortion (s : socket) : M (list num) :=
  emit (EvGetDistortionCoefficients s) ;;
  mret (getDistortionCoefficients calibData s).

Definition query_fov (s : socket) : M num :=
  emit (EvGetFov s) ;; mret (getFov calibData s).

(** The body of [with dai.Device() as device:] in [__init__]. *)
Definition read_calibration : M unit :=
  emit EvReadCalibration ;;
  w ← getattr_int "_right_width"; h ← getattr_int "_rgb_height";
  m ← query_intrinsics RGB w h; setattr "_M_rgb" (VArray m) ;;
  w ← getattr_int "_left_width"; h ← getattr_int "_left_height";
  m ← query_intrinsics LEFT w h; setattr "_M_left" (VArray m) ;;
  w ← getattr_int "_right_width"; h ← getattr_int "_right_height";
  m ← query_intrinsics RIGHT w h; setattr "_M_right" (VArray m) ;;
  d ← query_distortion LEFT; setattr "_D_left" (VVector d) ;;
  d ← query_distortion RIGHT; setattr "_D_right" (VVector d) ;;
  f ← query_fov RGB; setattr "_rgb_fov" (VFloat f) ;;
  f ← query_fov LEFT; setattr "_mono_fov" (VFloat f) ;;
  emit EvGetStereoLeftRectificationRotation ;;
  setattr "_R1" (VArray (getStereoLeftRectificationRotation calibData)) ;;
  emit EvGetStereoRightRectificationRotation ;;
  setattr "_R2" (VArray (getStereoRightRectificationRotation calibData)) ;;
  m_right ← getattr_array "_M_right"; r1 ← getattr_array "_R1";
  m_left ← getattr_array "_M_left";
  inv_left ← linalg_inv m_left;
  setattr "_H_left" (VArray (np_matmul (np_matmul m_right r1) inv_left)) ;;
  m_right ← getattr_array "_M_right"; r1 ← getattr_array "_R1";
  m_right' ← getattr_array "_M_right";
  inv_right ← linalg_inv m_right';
  setattr "_H_right" (VArray (np_matmul (np_matmul m_right r1) inv_right)) ;;
  emit EvGetBaselineDistance ;;
  setattr "_baseline" (VFloat (getBaselineDistance calibData)).

(** The literal handed to [np.float32] for [self._Q]. *)
Definition Q_rows : M matrix :=
  cx ← getattr_float "_cx"; cy ← getattr_float "_cy";
  f ← getattr_float "_focal_length"; b ← getattr_float "_baseline";
  q ← py_div (of_int (-1)) b;
  mret [ [of_int 1; of_int 0; of_int 0; fneg cx];
         [of_int 0; of_int 1; of_int 0; fneg cy];
         [of_int 0; of_int 0; of_int 0; f];
         [of_int 0; of_int 0; q; of_int 0] ].

Definition __init__ (a : args) : M unit :=
  setattr "_rgb_width" (VInt (rgb_size a).1) ;;
  setattr "_rgb_height" (VInt (rgb_size a).2) ;;
  setattr "_left_width" (VInt (mono_size a).1) ;;
  (w ← getattr "_left_width"; setattr "_right_width" w) ;;
  setattr "_left_height" (VInt (mono_size a).2) ;;
  (h ← getattr "_left_height"; setattr "_right_height" h) ;;
  setattr "_extended_disparity" (VBool (extended_disparity a)) ;;
  setattr "_subpixel" (VBool (subpixel a)) ;;
  setattr "_lr_check" (VBool (lr_check a)) ;;
  emit EvDeviceOpen ;;
  finally read_calibration (emit EvDeviceClose) ;;
  (m_left ← getattr_array "_M_left"; f ← index2 m_left 0 0;
   setattr "_focal_length" (VFloat f)) ;;
  (m_left ← getattr_array "_M_left"; cx ← index2 m_left 0 2;
   m_left' ← getattr_array "_M_left"; cy ← index2 m_left' 1 2;
   setattr "_cx" (VFloat cx) ;; setattr "_cy" (VFloat cy)) ;;
  (rows ← Q_rows; setattr "_Q" (VArray (np_float32 rows))) ;;
  new_pipeline ;;
  new_nodes ;;
  setattr "_stopped" (VBool false) ;;
  new_lock ;;
  setattr "_rgb_frame" VNone ;;
  setattr "_depth_frame" VNone ;;
  setattr "_left_frame" VNone ;;
  setattr "_right_frame" VNone ;;
  setattr "_rectified_left_frame" VNone ;;
  setattr "_rectified_right_frame" VNone ;;
  setattr "_display_stopped" (VBool false).

End WithCalibration.

(** ** The frame accessors (properties) *)

Definition rgb_frame : M value := getattr "_rgb_frame".
Definition disparity : M value := getattr "_depth_frame".
Definition left_frame : M value := getattr "_left_frame".
Definition right_frame : M value := getattr "_right_frame".
Definition rectified_left_frame : M value := getattr "_rectified_left_frame".
Definition rectified_right_frame : M value := getattr "_rectified_right_frame".

(** [stop] sets the flag the acquisition loop reads; the join is the
    caller's wait and changes nothing. *)
Definition stop : M unit := setattr "_stopped" (VBool true).

(** ** Building the pipeline *)

(** [self._pipeline.create(...)]: the new node is named by its position. *)
Definition create (n : pnode) : M nat := λ s,
  Done (length (pipeline s)) (set_pipeline (λ p, p ++ [n]) s).

(** A setter called on the node [id]. *)
Definition configure (id : nat) (f : pnode → pnode) : M unit := λ s,
  Done () (set_pipeline (alter f id) s).

Definition connect (src : nat) (out : string) (dst : nat) (inp : string) : M unit := λ s,
  Done () (set_links (λ l, l ++ [{| link_from := src; link_output := out;
                                    link_to := dst; link_input := inp |}]) s).

(** [d[k] = v] on a dict kept in insertion order *)
Fixpoint dict_set {V} (k : string) (v : V) (d : list (string * V)) : list (string * V) :=
  match d with
  | [] => [(k, v)]
  | (k', v') :: d' =>
      if decide (k = k') then (k, v) :: d' else (k', v') :: dict_set k v d'
  end.

(** [d[k]] *)
Fixpoint dict_get {V} (k : string) (d : list (string * V)) : option V :=
  match d with
  | [] => None
  | (k', v') :: d' => if decide (k = k') then Some v' else dict_get k d'
  end.

(** [self._nodes[key] = (node, xout)] *)
Definition set_node (key : string) (node : nat) (xout : option nat) : M unit := λ s,
  Done () (set_nodes (dict_set key (Some (node, xout))) s).

Definition new_color_camera : pnode :=
  ColorCamera {| cc_socket := None; cc_resolution := None; cc_video_size := None |}.
Definition new_mono_camera : pnode :=
  MonoCamera {| mc_socket := None; mc_resolution := None |}.
Definition new_xlink_out : pnode :=
  XLinkOut {| xo_stream := None; xo_blocking := None; xo_queue_size := None |}.
Definition new_stereo_depth : pnode :=
  StereoDepth {| sd_preset := None; sd_median := None; sd_lr_check := None;
                 sd_extended_disparity := None; sd_subpixel := None;
                 sd_post_processing := None |}.

Definition setStreamName (name : string) (n : pnode) : pnode :=
  match n with
  | XLinkOut x => XLinkOut {| xo_stream := Some name; xo_blocking := xo_blocking x;
                              xo_queue_size := xo_queue_size x |}
  | _ => n
  end.
Definition setBlocking (b : bool) (n : pnode) : pnode :=
  match n with
  | XLinkOut x => XLinkOut {| xo_stream := xo_stream x; xo_blocking := Some b;
                              xo_queue_size := xo_queue_size x |}
  | _ => n
  end.
Definition setQueueSize (k : Z) (n : pnode) : pnode :=
  match n with
  | XLinkOut x => XLinkOut {| xo_stream := xo_stream x; xo_blocking := xo_blocking x;
                              xo_queue_size := Some k |}
  | _ => n
  end.
Definition setBoardSocket (so : socket) (n : pnode) : pnode :=
  match n with
  | ColorCamera c => ColorCamera {| cc_socket := Some so; cc_resolution := cc_resolution c;
                                    cc_video_size := cc_video_size c |}
  | MonoCamera m => MonoCamera {| mc_socket := Some so; mc_resolution := mc_resolution m |}
  | _ => n
  end.
Definition setColorResolution (r : color_resolution) (n : pnode) : pnode :=
  match n with
  | ColorCamera c => ColorCamera {| cc_socket := cc_socket c; cc_resolution := Some r;
                                    cc_video_size := cc_video_size c |}
  | _ => n
  end.
Definition setMonoResolution (r : mono_resolution) (n : pnode) : pnode :=
  match n with
  | MonoCamera m => MonoCamera {| mc_socket := mc_socket m; mc_resolution := Some r |}
  | _ => n
  end.
Definition setVideoSize (w h : Z) (n : pnode) : pnode :=
  match n with
  | ColorCamera c => ColorCamera {| cc_socket := cc_socket c; cc_resolution := cc_resolution c;
                                    cc_video_size := Some (w, h) |}
  | _ => n
  end.
Definition update_stereo (f : stereo_depth → stereo_depth) (n : pnode) : pnode :=
  match n with StereoDepth d => StereoDepth (f d) | _ => n end.
Definition setDefaultProfilePreset (p : preset_mode) : pnode → pnode :=
  update_stereo (λ d, {| sd_preset := Some p; sd_median := sd_median d;
    sd_lr_check := sd_lr_check d; sd_extended_disparity := sd_extended_disparity d;
    sd_subpixel := sd_subpixel d; sd_post_processing := sd_post_processing d |}).
Definition setMedianFilter (m : median_filter) : pnode → pnode :=
  update_stereo (λ d, {| sd_preset := sd_preset d; sd_median := Some m;
    sd_lr_check := sd_lr_check d; sd_extended_disparity := sd_extended_disparity d;
    sd_subpixel := sd_subpixel d; sd_post_processing := sd_post_processing d |}).
Definition setLeftRightCheck (b : bool) : pnode → pnode :=
  update_stereo (λ d, {| sd_preset := sd_preset d; sd_median := sd_median d;
    sd_lr_check := Some b; sd_extended_disparity := sd_extended_disparity d;
    sd_subpixel := sd_subpixel d; sd_post_processing := sd_post_processing d |}).
Definition setExtendedDisparity (b : bool) : pnode → pnode :=
  update_stereo (λ d, {| sd_preset := sd_preset d; sd_median := sd_median d;
    sd_lr_check := sd_lr_check d; sd_extended_disparity := Some b;
    sd_subpixel := sd_subpixel d; sd_post_processing := sd_post_processing d |}).
Definition setSubpixel (b : bool) : pnode → pnode :=
  update_stereo (λ d, {| sd_preset := sd_preset d; sd_median := sd_median d;
    sd_lr_check := sd_lr_check d; sd_extended_disparity := sd_extended_disparity d;
    sd_subpixel := Some b; sd_post_processing := sd_post_processing d |}).
Definition setPostProcessing (c : post_processing) : pnode → pnode :=
  update_stereo (λ d, {| sd_preset := sd_preset d; sd_median := sd_median d;
    sd_lr_check := sd_lr_check d; sd_extended_disparity := sd_extended_disparity d;
    sd_subpixel := sd_subpixel d; sd_post_processing := Some c |}).

(** The fields of [config.postProcessing] that [_create_stereo] assigns. *)
Definition stereo_post_processing : post_processing :=
  {| speckle_enable := false; speckle_range := 50;
     temporal_enable := true;
     spatial_enable := true; spatial_hole_filling_radius := 2;
     spatial_num_iterations := 1;
     threshold_min_range := 400; threshold_max_range := 15000;
     decimation_factor := 1 |}.

Definition _create_cam_rgb : M unit :=
  cam_rgb ← create new_color_camera;
  xout_video ← create new_xlink_out;
  configure xout_video (setStreamName "color_camera") ;;
  configure cam_rgb (setBoardSocket RGB) ;;
  h ← getattr_int "_rgb_height";
  (if decide (h = 1080) then configure cam_rgb (setColorResolution THE_1080_P)
   else
     h ← getattr_int "_rgb_height";
     if decide (h = 2160) then configure cam_rgb (setColorResolution THE_4_K)
     else
       w ← getattr_int "_rgb_width"; h ← getattr_int "_rgb_height";
       raise (NotImplementedError w h)) ;;
  w ← getattr_int "_rgb_width"; h ← getattr_int "_rgb_height";
  configure cam_rgb (setVideoSize w h) ;;
  configure xout_video (setBlocking false) ;;
  configure xout_video (setQueueSize 1) ;;
  connect cam_rgb "video" xout_video "input" ;;
  set_node "color_camera" cam_rgb (Some xout_video).

Definition _create_stereo : M unit :=
  mono_left ← create new_mono_camera;
  mono_right ← create new_mono_camera;
  depth ← create new_stereo_depth;
  xout_depth ← create new_xlink_out;
  configure xout_depth (setStreamName "disparity") ;;
  xout_rect_left ← create new_xlink_out;
  configure xout_rect_left (setStreamName "rectified_left") ;;
  xout_rect_right ← create new_xlink_out;
  configure xout_rect_right (setStreamName "rectified_right") ;;
  configure mono_left (setMonoResolution THE_720_P) ;;
  configure mono_left (setBoardSocket LEFT) ;;
  configure mono_right (setMonoResolution THE_720_P) ;;
  configure mono_right (setBoardSocket RIGHT) ;;
  configure depth (setDefaultProfilePreset HIGH_DENSITY) ;;
  configure depth (setMedianFilter KERNEL_7x7) ;;
  (b ← getattr_bool "_lr_check"; configure depth (setLeftRightCheck b)) ;;
  (b ← getattr_bool "_extended_disparity"; configure depth (setExtendedDisparity b)) ;;
  (b ← getattr_bool "_subpixel"; configure depth (setSubpixel b)) ;;
  configure depth (setPostProcessing stereo_post_processing) ;;
  connect mono_left "out" depth "left" ;;
  connect mono_right "out" depth "right" ;;
  connect depth "disparity" xout_depth "input" ;;
  connect depth "rectifiedLeft" xout_rect_left "input" ;;
  connect depth "rectifiedRight" xout_rect_right "input" ;;
  set_node "stereo" depth (Some xout_depth) ;;
  set_node "mono_left" mono_left None ;;
  set_node "mono_right" mono_right None ;;
  set_node "rectified_left" depth (Some xout_rect_left) ;;
  set_node "rectified_right" depth (Some xout_rect_right).

(** ** The acquisition thread *)

(** [with self._data_lock:] *)
Definition acquire : M unit := λ s,
  if lock s then Waiting "_data_lock" s else Done () (set_lock true s).
Definition release : M unit := λ s, Done () (set_lock false s).
Definition with_lock {A} (body : M A) : M A := acquire ;; finally body release.

(** The host-side queues, [queues]: a dict from the key to the queue, which
    is named by the stream it was asked for. *)
Definition queue_dict := list (string * option string).

(** [self._nodes[key]] and [self._nodes.keys()] *)
Definition get_node (key : string) : M (option (nat * option nat)) := λ s,
  match dict_get key (nodes s) with
  | Some e => Done e s
  | None => Raised (KeyError key) s
  end.
Definition node_keys : M (list string) := λ s, Done (nodes s).*1 s.

(** [for key in self._nodes.keys(): if self._nodes[key] is not None:
     queues[key] = device.getOutputQueue(name=key, maxSize=1, blocking=False)].
    The device is taken to hand out a queue under every name it is asked
    for. *)
Fixpoint open_queues (keys : list string) (queues : queue_dict) : M queue_dict :=
  match keys with
  | [] => mret queues
  | key :: keys' =>
      node ← get_node key;
      match node with
      | Some _ =>
          emit (EvGetOutputQueue key 1 false) ;;
          open_queues keys' (dict_set key (Some key) queues)
      | None => open_queues keys' queues
      end
  end.

(** [queue.get()].  [arrivals] tells, for the queues that have a message
    ready when they are asked, which frame it carries. *)
Definition queue_get (mode : get_behaviour) (arrivals : gmap string frame)
    (name : string) : M message :=
  match arrivals !! name with
  | Some f => emit (EvQueueGet name) ;; mret (ImgFrame f)
  | None =>
      match mode with
      | GetWaits => wait name
      | GetReturnsNone => emit (EvQueueGet name) ;; mret NoMessage
      end
  end.

(** [data.getCvFrame()] *)
Definition getCvFrame (data : message) : M value :=
  match data with
  | ImgFrame f => mret (VFrame f)
  | NoMessage => raise (AttributeError "getCvFrame")
  end.

(** The [if name == ...: ... elif ...] chain of the loop body. *)
Definition dispatch (name : string) (data : message) : M unit :=
  if decide (name = "color_camera") then
    f ← getCvFrame data; setattr "_color_frame" f
  else if decide (name = "disparity") then
    f ← getCvFrame data; setattr "_disparity" f
  else if decide (name = "rectified_left") then
    f ← getCvFrame data; setattr "_left_rect_frame" f
  else if decide (name = "rectified_right") then
    f ← getCvFrame data; setattr "_right_rect_frame" f
  else if decide (name = "mono_left") then
    f ← getCvFrame data; setattr "_left_frame" f
  else if decide (name = "mono_right") then
    f ← getCvFrame data; setattr "_right_frame" f
  else mret ().

(** [for name, queue in queues.items(): ...] *)
Fixpoint poll_all (mode : get_behaviour) (arrivals : gmap string frame)
    (items : queue_dict) : M unit :=
  match items with
  | [] => mret ()
  | (name, queue) :: rest =>
      match queue with
      | Some q => data ← queue_get mode arrivals q; dispatch name data
      | None => mret ()
      end ;;
      poll_all mode arrivals rest
  end.

(** One pass of the [while] body. *)
Definition iteration (mode : get_behaviour) (queues : queue_dict)
    (arrivals : gmap string frame) : M unit :=
  with_lock (poll_all mode arrivals queues).

(** [while not self._stopped: ...].  [inputs] holds, pass by pass, the
    frames the device delivers; once it is used up no frame arrives any
    more: the next pass finds every queue empty, and a pass that gets
    through all the same leaves the thread going round until the flag is
    set. *)
Fixpoint acquisition_loop (mode : get_behaviour) (queues : queue_dict)
    (inputs : list (gmap string frame)) : M unit :=
  match inputs with
  | [] =>
      stopped ← getattr_bool "_stopped";
      if stopped : bool then (mret () : M unit)
      else iteration mode queues ∅ ;; wait "_stopped"
  | arrivals :: rest =>
      stopped ← getattr_bool "_stopped";
      if stopped : bool then (mret () : M unit)
      else iteration mode queues arrivals ;; acquisition_loop mode queues rest
  end.

Definition _target (mode : get_behaviour) (inputs : list (gmap string frame)) : M unit :=
  _create_cam_rgb ;;
  _create_stereo ;;
  emit EvPipelineDeviceOpen ;;
  finally
    (keys ← node_keys;
     queues ← open_queues keys [];
     acquisition_loop mode queues inputs)
    (emit EvPipelineDeviceClose).

(** ** Reconstruction *)

Definition is_none (v : value) : bool :=
  match v with VNone => true | _ => false end.

(** [cv2.reprojectImageTo3D(disparity, self._Q)] *)
Definition cv2_reprojectImageTo3D (d q : value) : M value :=
  match d, q with
  | VFrame f, VArray a => mret (VPoints (reprojectImageTo3D f a))
  | _, _ => raise (TypeError "reprojectImageTo3D")
  end.

(** The block under the lock either returns from [compute_3d] at once
    ([inl]) or hands the two references on ([inr]). *)
Definition snapshot : M ((value * value * value) + (value * value)) :=
  with_lock (
    disparity ← getattr "_disparity";
    left_frame ← getattr "_rectified_left_frame";
    if is_none disparity || is_none left_frame then mret (inl (VNone, VNone, VNone))
    else mret (inr (disparity, left_frame))).

Definition compute_3d : M (value * value * value) :=
  r ← snapshot;
  match r with
  | inl not_ready => mret not_ready
  | inr (disparity, left_frame) =>
      q ← getattr "_Q";
      img3d ← cv2_reprojectImageTo3D disparity q;
      mret (img3d, disparity, left_frame)
  end.

(** ** Calls on a constructed instance

    What can happen to an instance once the constructor has returned: the
    acquisition thread runs [_target], and clients read a frame, ask for the
    point cloud or stop the camera. *)

Inductive accessor :=
| RgbFrame | Disparity | LeftFrame | RightFrame
| RectifiedLeftFrame | RectifiedRightFrame.

Definition read (which : accessor) : M value :=
  match which with
  | RgbFrame => rgb_frame
  | Disparity => disparity
  | LeftFrame => left_frame
  | RightFrame => right_frame
  | RectifiedLeftFrame => rectified_left_frame
  | RectifiedRightFrame => rectified_right_frame
  end.

Inductive call :=
| Target (mode : get_behaviour) (inputs : list (gmap string frame))
| Compute3d
| Stop
| Read (which : accessor).

(** The state a call leaves, however it ends. *)
Definition after (c : call) (s : state) : state :=
  match c with
  | Target mode inputs => outcome_state (_target mode inputs s)
  | Compute3d => outcome_state (compute_3d s)
  | Stop => outcome_state (stop s)
  | Read which => outcome_state (read which s)
  end.

Definition after_all (cs : list call) (s : state) : state :=
  foldl (λ s c, after c s) s cs.

(** ** The display thread *)

(** What [_display] asks of OpenCV: [cv2.imshow(window, frame)] and
    [cv2.waitKey(delay)]. *)
Inductive display_event :=
| Imshow (window : string) (shown : value)
| WaitKey (delay : Z).

(** [if self.attr is not None: cv2.imshow(window, self.attr)] *)
Definition imshow_if_present (window attr : string) : M (list display_event) :=
  v ← getattr attr;
  if is_none v then mret []
  else shown ← getattr attr; mret [Imshow window shown].

(** One pass of the [while] body of [_display]. *)
Definition display_pass : M (list display_event) :=
  rgb ← imshow_if_present "rgb" "_rgb_frame";
  depth ← imshow_if_present "depth" "_depth_frame";
  left ← imshow_if_present "left" "_left_frame";
  right ← imshow_if_present "right" "_right_frame";
  rect_left ← imshow_if_present "rectified left" "_rectified_left_frame";
  rect_right ← imshow_if_present "rectified right" "_rectified_right_frame";
  mret (rgb ++ depth ++ left ++ right ++ rect_left ++ rect_right ++ [WaitKey 1]).

(** [while not self._display_stopped: ...], for the first [passes] passes
    of the loop: what it has asked of OpenCV by then. *)
Fixpoint _display (passes : nat) : M (list display_event) :=
  match passes with
  | O => mret []
  | S passes' =>
      stopped ← getattr_bool "_display_stopped";
      if stopped : bool then (mret [] : M (list display_event))
      else
        shown ← display_pass;
        later ← _display passes';
        mret (shown ++ later)
  end.

(** [stop_display] sets the flag of the display loop; the join is the
    caller's wait, as in [stop]. *)
Definition stop_display : M unit := setattr "_display_stopped" (VBool true).

End Camera.

(** * The vocabulary of the statements

    The closed forms of the states the constructor, the builders and the
    thread leave, and the relations and predicates the properties below are
    stated with. *)

Section Vocabulary.
Context {num : Type} `{!Backend num}.
Implicit Types (s : state (num := num)) (calib : CalibrationHandler (num := num)).
Implicit Types (a : args).

(** The left intrinsics as the constructor asks for them. *)
Definition M_left_of calib a : list (list num) :=
  getCameraIntrinsics calib LEFT (mono_size a).1 (mono_size a).2.
Definition M_right_of calib a : list (list num) :=
  getCameraIntrinsics calib RIGHT (mono_size a).1 (mono_size a).2.

(** The rows of [Q] as the specification writes them. *)
Definition Q_matrix (f cx cy baseline : num) : list (list num) :=
  [ [of_int 1; of_int 0; of_int 0; fneg cx];
    [of_int 0; of_int 1; of_int 0; fneg cy];
    [of_int 0; of_int 0; of_int 0; f];
    [of_int 0; of_int 0; fdiv (of_int (-1)) baseline; of_int 0] ].

(** What the constructor asks of the device. *)
Definition calibration_events a : list event :=
  [ EvDeviceOpen; EvReadCalibration;
    EvGetCameraIntrinsics RGB (mono_size a).1 (rgb_size a).2;
    EvGetCameraIntrinsics LEFT (mono_size a).1 (mono_size a).2;
    EvGetCameraIntrinsics RIGHT (mono_size a).1 (mono_size a).2;
    EvGetDistortionCoefficients LEFT; EvGetDistortionCoefficients RIGHT;
    EvGetFov RGB; EvGetFov LEFT;
    EvGetStereoLeftRectificationRotation; EvGetStereoRightRectificationRotation;
    EvGetBaselineDistance; EvDeviceClose ].

(** The attributes in place when the [with] block of the constructor is
    left, over the dictionary [d] the instance started with. *)
Definition calibrated_attrs calib a (il ir : list (list num))
    (d : gmap string value) : gmap string value :=
  <["_baseline" := VFloat (getBaselineDistance calib)]>
  (<["_H_right" := VArray (np_matmul (np_matmul (M_right_of calib a)
        (getStereoLeftRectificationRotation calib)) ir)]>
  (<["_H_left" := VArray (np_matmul (np_matmul (M_right_of calib a)
        (getStereoLeftRectificationRotation calib)) il)]>
  (<["_R2" := VArray (getStereoRightRectificationRotation calib)]>
  (<["_R1" := VArray (getStereoLeftRectificationRotation calib)]>
  (<["_mono_fov" := VFloat (getFov calib LEFT)]>
  (<["_rgb_fov" := VFloat (getFov calib RGB)]>
  (<["_D_right" := VVector (getDistortionCoefficients calib RIGHT)]>
  (<["_D_left" := VVector (getDistortionCoefficients calib LEFT)]>
  (<["_M_right" := VArray (M_right_of calib a)]>
  (<["_M_left" := VArray (M_left_of calib a)]>
  (<["_M_rgb" := VArray (getCameraIntrinsics calib RGB (mono_size a).1 (rgb_size a).2)]>
  (<["_lr_check" := VBool (lr_check a)]>
  (<["_subpixel" := VBool (subpixel a)]>
  (<["_extended_disparity" := VBool (extended_disparity a)]>
  (<["_right_height" := VInt (mono_size a).2]>
  (<["_left_height" := VInt (mono_size a).2]>
  (<["_right_width" := VInt (mono_size a).1]>
  (<["_left_width" := VInt (mono_size a).1]>
  (<["_rgb_height" := VInt (rgb_size a).2]>
  (<["_rgb_width" := VInt (rgb_size a).1]> d)))))))))))))))))))).

(** The instance a constructor that returns leaves behind. *)
Definition constructed calib a (f cx cy : num) (il ir : list (list num)) s : state :=
  {| attrs :=
       <["_display_stopped" := VBool false]>
       (<["_rectified_right_frame" := VNone]>
       (<["_rectified_left_frame" := VNone]>
       (<["_right_frame" := VNone]>
       (<["_left_frame" := VNone]>
       (<["_depth_frame" := VNone]>
       (<["_rgb_frame" := VNone]>
       (<["_stopped" := VBool false]>
       (<["_Q" := VArray (np_float32 (Q_matrix f cx cy (getBaselineDistance calib)))]>
       (<["_cy" := VFloat cy]>
       (<["_cx" := VFloat cx]>
       (<["_focal_length" := VFloat f]>
       (calibrated_attrs calib a il ir (attrs s)))))))))))));
     nodes := []; pipeline := []; links := [];
     log := log s ++ calibration_events a;
     lock := false |}.

(** The attribute in which the loop stores the frame of the queue [name],
    when it stores it. *)
Definition slot_of (name : string) : option string :=
  if decide (name = "color_camera") then Some "_color_frame"
  else if decide (name = "disparity") then Some "_disparity"
  else if decide (name = "rectified_left") then Some "_left_rect_frame"
  else if decide (name = "rectified_right") then Some "_right_rect_frame"
  else if decide (name = "mono_left") then Some "_left_frame"
  else if decide (name = "mono_right") then Some "_right_frame"
  else None.

(** The attributes the acquisition loop assigns. *)
Definition loop_slots : list string :=
  ["_color_frame"; "_disparity"; "_left_rect_frame"; "_right_rect_frame";
   "_left_frame"; "_right_frame"].

(** The computation [m] relates the state it starts from to the state it
    leaves, however it ends. *)
Definition keeps (R : relation (state (num := num))) {A} (m : M A) : Prop :=
  ∀ s, R s (outcome_state (m s)).

(** The slots of the queues in [items] may be assigned. *)
Definition slots_writable (writable : string → Prop) (items : queue_dict) : Prop :=
  Forall (λ item, ∀ k, slot_of item.1 = Some k → writable k) items.

(** The attribute [k] holds the same after as before. *)
Definition unchanged (k : string) : relation (state (num := num)) :=
  λ s s', attrs s' !! k = attrs s !! k.

(** The intrinsics queries among the events of a log. *)
Definition intrinsics_query (e : event) : option (socket * Z * Z) :=
  match e with
  | EvGetCameraIntrinsics s w h => Some (s, w, h)
  | _ => None
  end.

Definition intrinsics_queries (l : list event) : list (socket * Z * Z) :=
  omap intrinsics_query l.

(** The calibration with the right rectification rotation replaced. *)
Definition with_right_rotation (r2 : list (list num)) calib
    : CalibrationHandler (num := num) :=
  {| getCameraIntrinsics := getCameraIntrinsics calib;
     getDistortionCoefficients := getDistortionCoefficients calib;
     getFov := getFov calib;
     getStereoLeftRectificationRotation := getStereoLeftRectificationRotation calib;
     getStereoRightRectificationRotation := r2;
     getBaselineDistance := getBaselineDistance calib |}.

(** The sensor preset the specification names for a height of the color
    output, when it names one. *)
Definition preset_of_height (h : Z) : option color_resolution :=
  if decide (h = 1080) then Some THE_1080_P
  else if decide (h = 2160) then Some THE_4_K
  else None.

(** The two nodes [_create_cam_rgb] adds, by what has been set on them. *)
Definition color_nodes (r : option color_resolution) (size : option (Z * Z))
    (blocking : option bool) (queue_size : option Z) : list pnode :=
  [ ColorCamera {| cc_socket := Some RGB; cc_resolution := r; cc_video_size := size |};
    XLinkOut {| xo_stream := Some "color_camera"; xo_blocking := blocking;
                xo_queue_size := queue_size |} ].

(** The six nodes [_create_stereo] adds. *)
Definition stereo_nodes (lr ext sub : bool) : list pnode :=
  [ MonoCamera {| mc_socket := Some LEFT; mc_resolution := Some THE_720_P |};
    MonoCamera {| mc_socket := Some RIGHT; mc_resolution := Some THE_720_P |};
    StereoDepth {| sd_preset := Some HIGH_DENSITY; sd_median := Some KERNEL_7x7;
                   sd_lr_check := Some lr; sd_extended_disparity := Some ext;
                   sd_subpixel := Some sub;
                   sd_post_processing := Some stereo_post_processing |};
    XLinkOut {| xo_stream := Some "disparity"; xo_blocking := None;
                xo_queue_size := None |};
    XLinkOut {| xo_stream := Some "rectified_left"; xo_blocking := None;
                xo_queue_size := None |};
    XLinkOut {| xo_stream := Some "rectified_right"; xo_blocking := None;
                xo_queue_size := None |} ].

Definition mk_link (src : nat) (out : string) (dst : nat) (inp : string) : link :=
  {| link_from := src; link_output := out; link_to := dst; link_input := inp |}.

(** The state [_create_cam_rgb] leaves when the height is supported. *)
Definition with_color (w h : Z) (r : color_resolution) s : state :=
  let n := length (pipeline s) in
  {| attrs := attrs s;
     nodes := dict_set "color_camera" (Some (n, Some (S n))) (nodes s);
     pipeline := pipeline s ++ color_nodes (Some r) (Some (w, h)) (Some false) (Some 1);
     links := links s ++ [mk_link n "video" (S n) "input"];
     log := log s; lock := lock s |}.

(** The state it leaves when it raises: the two nodes are there, the
    camera with no resolution and no video size. *)
Definition with_bare_color s : state :=
  {| attrs := attrs s; nodes := nodes s;
     pipeline := pipeline s ++ color_nodes None None None None;
     links := links s; log := log s; lock := lock s |}.

(** The state [_create_stereo] leaves. *)
Definition with_stereo (lr ext sub : bool) s : state :=
  let n := length (pipeline s) in
  {| attrs := attrs s;
     nodes :=
       dict_set "rectified_right" (Some (n + 2, Some (n + 5)))%nat
       (dict_set "rectified_left" (Some (n + 2, Some (n + 4)))%nat
       (dict_set "mono_right" (Some (n + 1, None))%nat
       (dict_set "mono_left" (Some (n, None))
       (dict_set "stereo" (Some (n + 2, Some (n + 3)))%nat (nodes s)))));
     pipeline := pipeline s ++ stereo_nodes lr ext sub;
     links := links s ++
       [ mk_link n "out" (n + 2) "left"; mk_link (n + 1) "out" (n + 2) "right";
         mk_link (n + 2) "disparity" (n + 3) "input";
         mk_link (n + 2) "rectifiedLeft" (n + 4) "input";
         mk_link (n + 2) "rectifiedRight" (n + 5) "input" ]%nat;
     log := log s; lock := lock s |}.

(** The keys of [_nodes] once both builders have run on an empty dict. *)
Definition camera_keys : list string :=
  ["color_camera"; "stereo"; "mono_left"; "mono_right";
   "rectified_left"; "rectified_right"].

(** The queues the thread opens for them. *)
Definition camera_queues : queue_dict := map (λ k, (k, Some k)) camera_keys.

(** The state in which the loop starts: the pipeline is built, the device
    is open and one queue has been asked for under every key. *)
Definition started (w h : Z) (r : color_resolution) (lr ext sub : bool) s : state :=
  set_log (λ l, l ++ EvPipelineDeviceOpen
                  :: map (λ k, EvGetOutputQueue k 1 false) camera_keys)
    (with_stereo lr ext sub (with_color w h r s)).

(** Every queue of the dict has a frame ready. *)
Definition all_ready (arrivals : gmap string frame) (items : queue_dict) : Prop :=
  Forall (λ item, ∀ q, item.2 = Some q → is_Some (arrivals !! q)) items.

(** Storing the frame [f] that came from the queue [name]. *)
Definition store (name : string) (f : frame) s : state :=
  match slot_of name with
  | Some k => set_attrs (insert k (VFrame f)) s
  | None => s
  end.

(** The pass itself does not touch the lock. *)
Definition same_lock : relation (state (num := num)) := λ s s', lock s' = lock s.

(** A queue asked for with [maxSize=1] and [blocking=False]; any other
    event passes. *)
Definition latest_frame_wins (e : event) : Prop :=
  match e with
  | EvGetOutputQueue _ m b => m = 1 ∧ b = false
  | _ => True
  end.

(** The log has grown by events that satisfy [P]. *)
Definition log_extends (P : event → Prop) : relation (state (num := num)) :=
  λ s s', ∃ l, log s' = log s ++ l ∧ Forall P l.

(** The attribute an accessor returns. *)
Definition slot_read (which : accessor) : string :=
  match which with
  | RgbFrame => "_rgb_frame"
  | Disparity => "_depth_frame"
  | LeftFrame => "_left_frame"
  | RightFrame => "_right_frame"
  | RectifiedLeftFrame => "_rectified_left_frame"
  | RectifiedRightFrame => "_rectified_right_frame"
  end.

(** What the constructor has asked of the device when an inversion fails:
    everything but the baseline. *)
Definition calibration_events_aborted a : list event :=
  [ EvDeviceOpen; EvReadCalibration;
    EvGetCameraIntrinsics RGB (mono_size a).1 (rgb_size a).2;
    EvGetCameraIntrinsics LEFT (mono_size a).1 (mono_size a).2;
    EvGetCameraIntrinsics RIGHT (mono_size a).1 (mono_size a).2;
    EvGetDistortionCoefficients LEFT; EvGetDistortionCoefficients RIGHT;
    EvGetFov RGB; EvGetFov LEFT;
    EvGetStereoLeftRectificationRotation; EvGetStereoRightRectificationRotation;
    EvDeviceClose ].

(** The attributes in [ks] are in [s'] what they were in [s]. *)
Definition unassigned (ks : list string) s s' : Prop :=
  Forall (λ k, attrs s' !! k = attrs s !! k) ks.

(** The calibration lets the constructor return: these are the conditions
    of [init_returns]. *)
Definition calibrated calib a (f cx cy : num) (il ir : list (list num)) : Prop :=
  entry (M_left_of calib a) 0 0 = Some f ∧
  entry (M_left_of calib a) 0 2 = Some cx ∧
  entry (M_left_of calib a) 1 2 = Some cy ∧
  np_linalg_inv (M_left_of calib a) = Some il ∧
  np_linalg_inv (M_right_of calib a) = Some ir ∧
  is_zero (getBaselineDistance calib) = false.

(** The ways the constructor can end, each with what it leaves. *)
Inductive init_case calib a s : outcome unit → Prop :=
| init_left_singular s' :
    np_linalg_inv (M_left_of calib a) = None →
    log s' = log s ++ calibration_events_aborted a →
    unassigned ["_H_left"; "_H_right"; "_baseline"; "_focal_length"; "_Q";
                "_stopped"; "_rgb_frame"; "_disparity"] s s' →
    init_case calib a s (Raised LinAlgError s')
| init_right_singular il s' :
    np_linalg_inv (M_left_of calib a) = Some il →
    np_linalg_inv (M_right_of calib a) = None →
    log s' = log s ++ calibration_events_aborted a →
    attrs s' !! "_H_left"
      = Some (VArray (np_matmul (np_matmul (M_right_of calib a)
                        (getStereoLeftRectificationRotation calib)) il)) →
    unassigned ["_H_right"; "_baseline"; "_focal_length"; "_Q";
                "_stopped"; "_rgb_frame"; "_disparity"] s s' →
    init_case calib a s (Raised LinAlgError s')
| init_no_entry il ir s' :
    np_linalg_inv (M_left_of calib a) = Some il →
    np_linalg_inv (M_right_of calib a) = Some ir →
    entry (M_left_of calib a) 0 0 = None ∨ entry (M_left_of calib a) 0 2 = None
      ∨ entry (M_left_of calib a) 1 2 = None →
    log s' = log s ++ calibration_events a →
    unassigned ["_Q"; "_stopped"; "_rgb_frame"; "_disparity"] s s' →
    init_case calib a s (Raised IndexError s')
| init_zero_baseline f cx cy il ir s' :
    entry (M_left_of calib a) 0 0 = Some f →
    entry (M_left_of calib a) 0 2 = Some cx →
    entry (M_left_of calib a) 1 2 = Some cy →
    np_linalg_inv (M_left_of calib a) = Some il →
    np_linalg_inv (M_right_of calib a) = Some ir →
    is_zero (getBaselineDistance calib) = true →
    log s' = log s ++ calibration_events a →
    unassigned ["_Q"; "_stopped"; "_rgb_frame"; "_disparity"] s s' →
    init_case calib a s (Raised ZeroDivisionError s')
| init_constructed f cx cy il ir :
    calibrated calib a f cx cy il ir →
    init_case calib a s (Done () (constructed calib a f cx cy il ir s)).

(** An event of the calibration session: the device is read, not opened,
    closed or streamed from. *)
Definition calibration_query (e : event) : Prop :=
  match e with
  | EvReadCalibration | EvGetCameraIntrinsics _ _ _ | EvGetDistortionCoefficients _
  | EvGetFov _ | EvGetStereoLeftRectificationRotation
  | EvGetStereoRightRectificationRotation | EvGetBaselineDistance => True
  | _ => False
  end.

(** The state one pass over [camera_queues] leaves when the six queues
    deliver [fc], a stereo frame, [fl], [fr], [frl] and [frr]: the stereo
    frame is in no attribute. *)
Definition received (fc fl fr frl frr : frame) s : state :=
  {| attrs :=
       <["_right_rect_frame" := VFrame frr]>
       (<["_left_rect_frame" := VFrame frl]>
       (<["_right_frame" := VFrame fr]>
       (<["_left_frame" := VFrame fl]>
       (<["_color_frame" := VFrame fc]> (attrs s)))));
     nodes := nodes s; pipeline := pipeline s; links := links s;
     log := log s ++ map EvQueueGet camera_keys;
     lock := lock s |}.

(** The names of the streams a pipeline declares, one for each XLinkOut
    that has been given one. *)
Definition stream_names (pl : list pnode) : list string :=
  omap (λ n, match n with XLinkOut x => xo_stream x | _ => None end) pl.

(** The names under which output queues have been asked of the device. *)
Definition requested_queues (l : list event) : list string :=
  omap (λ e, match e with EvGetOutputQueue name _ _ => Some name | _ => None end) l.

(** A [get()] on an output queue. *)
Definition queue_get_event (e : event) : Prop :=
  match e with EvQueueGet _ => True | _ => False end.

(** What the loop may change of the world outside the attributes: it asks
    the queues for frames, and leaves the pipeline and [_nodes] alone. *)
Definition reads_queues : relation (state (num := num)) := λ s s',
  pipeline s' = pipeline s ∧ links s' = links s ∧ nodes s' = nodes s ∧
  log_extends queue_get_event s s'.

(** The device is closed when the thread body is left, not while it waits. *)
Definition closing {A} (o : outcome (num := num) A) : list event :=
  match o with
  | Waiting _ _ => []
  | _ => [EvPipelineDeviceClose]
  end.

(** The attribute [k] is still assigned. *)
Definition still_assigned (k : string) : relation (state (num := num)) :=
  λ s s', is_Some (attrs s !! k) → is_Some (attrs s' !! k).

(** What one pass of [_display] asks of OpenCV when the left and the right
    frame are [l] and [r] and the other four attributes are [None]. *)
Definition shown_left_right (l r : value (num := num)) : list (display_event (num := num)) :=
  (if is_none l then [] else [Imshow "left" l]) ++
  (if is_none r then [] else [Imshow "right" r]) ++ [WaitKey 1].

(** The computation [m] only looks at the instance: it returns or raises
    in the state it started from, and never waits. *)
Definition looks_only {A} (m : M (num := num) A) : Prop :=
  ∀ s, (∃ x, m s = Done x s) ∨ (∃ e, m s = Raised e s).

End Vocabulary.

(** ** An exact backend

    Rational arithmetic in place of the floating-point numbers: nothing is
    rounded, and a quotient by zero, where Python does not raise, is [0]
    (there are no infinities).  It serves to run the model on concrete
    calibration data. *)
Module Exact.

Definition dot (u v : list Q) : Q := foldr Qplus 0%Q (zip_with Qmult u v).

Definition column (j : nat) (b : list (list Q)) : list Q :=
  map (λ r, nth j r 0%Q) b.

Definition matmul (a b : list (list Q)) : list (list Q) :=
  map (λ row, map (λ j, Qred (dot row (column j b))) (seq 0 (length (hd [] b)))) a.

Definition det3 (m : list (list Q)) : option Q :=
  match m with
  | [[a; b; c]; [d; e; f]; [g; h; i]] =>
      Some (a * (e * i - f * h) - b * (d * i - f * g) + c * (d * h - e * g))%Q
  | _ => None
  end.

(** The inverse of a 3 by 3 matrix by its adjugate; [None] when the matrix
    is singular or has another shape. *)
Definition inv3 (m : list (list Q)) : option (list (list Q)) :=
  match m, det3 m with
  | [[a; b; c]; [d; e; f]; [g; h; i]], Some dt =>
      if Qeq_bool dt 0 then None
      else Some (map (map (λ x, Qred (x / dt)))
        [ [e * i - f * h; c * h - b * i; b * f - c * e];
          [f * g - d * i; a * i - c * g; c * d - a * f];
          [d * h - e * g; b * g - a * h; a * e - b * d] ])%Q
  | _, _ => None
  end.

(** The point of one pixel: [q · (x, y, d, 1)], divided by its fourth
    component. *)
Definition reproject_pixel (q : list (list Q)) (x y d : Z) : Q * Q * Q :=
  let v := [inject_Z x; inject_Z y; inject_Z d; 1%Q] in
  match map (λ row, dot row v) q with
  | [X; Y; Z; W] => (Qred (X / W), Qred (Y / W), Qred (Z / W))
  | _ => (0, 0, 0)%Q
  end.

Definition reproject (d : frame) (q : list (list Q)) : list (list (Q * Q * Q)) :=
  imap (λ y row, imap (λ x v, reproject_pixel q (Z.of_nat x) (Z.of_nat y) v) row) d.

#[export] Instance backend : Backend Q := {|
  of_int := inject_Z;
  fneg := λ x, Qred (- x);
  fdiv := λ a b, Qred (a / b);
  is_zero := λ b, Qeq_bool b 0;
  float32 := λ x, x;
  np_matmul := matmul;
  np_linalg_inv := inv3;
  reprojectImageTo3D := reproject;
|}.

Definition identity3 : list (list Q) :=
  [[1; 0; 0]; [0; 1; 0]; [0; 0; 1]]%Q.

(** A calibrated device: focal length 860, principal point (640, 360),
    baseline 7.5 cm, whatever the resolution asked for. *)
Definition calibration (baseline : Q) : CalibrationHandler (num := Q) :=
  {| getCameraIntrinsics := λ s _ _,
       match s with
       | RGB => [[1500; 0; 960]; [0; 1500; 540]; [0; 0; 1]]
       | LEFT => [[860; 0; 640]; [0; 860; 360]; [0; 0; 1]]
       | RIGHT => [[862; 0; 636]; [0; 862; 358]; [0; 0; 1]]
       end%Q;
     getDistortionCoefficients := λ _, [];
     getFov := λ s, match s with RGB => 69 | _ => 72 end%Q;
     getStereoLeftRectificationRotation := identity3;
     getStereoRightRectificationRotation := [[0; 1; 0]; [1; 0; 0]; [0; 0; 1]]%Q;
     getBaselineDistance := baseline |}.

(** The instance right after [OAK_Camera()] on that device. *)
Definition fresh : outcome unit :=
  __init__ (calibration (15 # 2)) default_args empty_state.

(** The inverses of the left and the right intrinsics of that device. *)
Definition inv_left : list (list Q) :=
  Eval vm_compute in
    default [] (inv3 (getCameraIntrinsics (calibration (15 # 2)) LEFT 1280 720)).
Definition inv_right : list (list Q) :=
  Eval vm_compute in
    default [] (inv3 (getCameraIntrinsics (calibration (15 # 2)) RIGHT 1280 720)).

(** The instance itself. *)
Definition camera : state := outcome_state fresh.

(** The same device with a color size of (1280, 720). *)
Definition args_720 : args :=
  {| rgb_size := (1280, 720); mono_size := (1280, 720);
     extended_disparity := true; subpixel := true; lr_check := true |}.
Definition camera_720 : state :=
  outcome_state (__init__ (calibration (15 # 2)) args_720 empty_state).

(** The instance when the thread has built the pipeline, opened the device
    and reached its loop. *)
Definition running : state := started 1920 1080 THE_1080_P true true true camera.

(** One frame for each queue, told apart by its pixel. *)
Definition color_frame : frame := [[1]].
Definition stereo_frame : frame := [[2]].
Definition mono_left_frame : frame := [[3]].
Definition mono_right_frame : frame := [[4]].
Definition rect_left_frame : frame := [[5]].
Definition rect_right_frame : frame := [[6]].

(** Every queue has its frame ready. *)
Definition all_arrive : gmap string frame :=
  list_to_map
    [ ("color_camera", color_frame); ("stereo", stereo_frame);
      ("mono_left", mono_left_frame); ("mono_right", mono_right_frame);
      ("rectified_left", rect_left_frame); ("rectified_right", rect_right_frame) ].

(** Every queue but the color one has. *)
Definition no_color : gmap string frame := delete "color_camera" all_arrive.

(** A device whose left intrinsics cannot be inverted (no vertical focal
    length). *)
Definition flat_calibration : CalibrationHandler (num := Q) :=
  {| getCameraIntrinsics := λ s _ _,
       match s with
       | RGB => [[1500; 0; 960]; [0; 1500; 540]; [0; 0; 1]]
       | LEFT => [[860; 0; 640]; [0; 0; 360]; [0; 0; 1]]
       | RIGHT => [[862; 0; 636]; [0; 862; 358]; [0; 0; 1]]
       end%Q;
     getDistortionCoefficients := λ _, [];
     getFov := λ s, match s with RGB => 69 | _ => 72 end%Q;
     getStereoLeftRectificationRotation := identity3;
     getStereoRightRectificationRotation := identity3;
     getBaselineDistance := (15 # 2)%Q |}.

(** The frames of a later pass. *)
Definition next_arrive : gmap string frame :=
  list_to_map
    [ ("color_camera", [[11]]); ("stereo", [[12]]);
      ("mono_left", [[13]]); ("mono_right", [[14]]);
      ("rectified_left", [[15]]); ("rectified_right", [[16]]) ].

End Exact.

(** * Properties *)

(** ** Running the model symbolically *)

(** Unfolds the monad and the state updates, leaving the attribute
    dictionary as a chain of [insert]s. *)
Ltac unfold_model :=
  cbv beta iota zeta delta
    [__init__ read_calibration Q_rows query_intrinsics query_distortion query_fov
     finally mbind M_bind mret M_ret raise wait setattr getattr emit
     getattr_int getattr_bool getattr_float getattr_array
     as_int as_bool as_float as_array
     index2 py_div linalg_inv
     rgb_frame disparity left_frame right_frame rectified_left_frame
     rectified_right_frame stop
     new_pipeline new_nodes new_lock get_node node_keys
     create configure connect set_node acquire release with_lock
     set_attrs set_nodes set_pipeline set_links set_log set_lock
     attrs nodes pipeline links log lock outcome_state
     fst snd rgb_size mono_size extended_disparity subpixel lr_check].

(** Resolves the lookups in such a chain. *)
Ltac lookups :=
  repeat first [ rewrite lookup_insert_eq | rewrite lookup_insert_ne by done ].

Ltac run := repeat (unfold_model; lookups).

Section Constructor.
Context {num : Type} `{!Backend num}.
Implicit Types (s : state (num := num)) (calib : CalibrationHandler (num := num)).
Implicit Types (a : args).

(** The constructor returns when the left intrinsics have the three entries
    it reads, both intrinsics can be inverted and the baseline is not zero;
    [constructed] is then the instance. *)
Lemma init_returns calib a f cx cy il ir s :
  entry (M_left_of calib a) 0 0 = Some f →
  entry (M_left_of calib a) 0 2 = Some cx →
  entry (M_left_of calib a) 1 2 = Some cy →
  np_linalg_inv (M_left_of calib a) = Some il →
  np_linalg_inv (M_right_of calib a) = Some ir →
  is_zero (getBaselineDistance calib) = false →
  __init__ calib a s = Done () (constructed calib a f cx cy il ir s).
Proof.
  destruct a as [[w h] [wm hm] e sp l]. unfold M_left_of, M_right_of. cbn [mono_size fst snd].
  intros Hf Hcx Hcy Hl Hr Hz.
  run. rewrite Hl. run. rewrite Hr. run.
  rewrite Hf. run. rewrite Hcx. run. rewrite Hcy. run. rewrite Hz.
  unfold constructed, calibrated_attrs, calibration_events, M_left_of, M_right_of, Q_matrix.
  cbn [mono_size rgb_size extended_disparity subpixel lr_check fst snd attrs log].
  rewrite <- !app_assoc. reflexivity.
Qed.

End Constructor.

(** ** What a computation leaves alone

    A relation [R] between the state before and the state after that is a
    preorder, holds across every assignment to an attribute in [writable],
    across every event in [loggable] and across every change of the
    pipeline, the nodes and the lock, holds across every computation built
    from these. *)

Create HintDb keeps discriminated.

Lemma slot_of_loop_slots name k : slot_of name = Some k → k ∈ loop_slots.
Proof.
  unfold slot_of, loop_slots. repeat case_decide; intros [= <-]; set_solver.
Qed.


Section Frame.
Context {num : Type} `{!Backend num}.
Implicit Types (s : state (num := num)).

Variable R : relation (state (num := num)).
Context `{!PreOrder R}.
Variable writable : string → Prop.
Variable loggable : event → Prop.

Hypothesis R_attr : ∀ n v s, writable n → R s (set_attrs (insert n v) s).
Hypothesis R_log : ∀ e s, loggable e → R s (set_log (λ l, l ++ [e]) s).
Hypothesis R_pipeline : ∀ f s, R s (set_pipeline f s).
Hypothesis R_links : ∀ f s, R s (set_links f s).
Hypothesis R_nodes : ∀ f s, R s (set_nodes f s).
Hypothesis R_lock : ∀ b s, R s (set_lock b s).

Local Abbreviation keeps := (keeps R).
Local Abbreviation slots_writable := (slots_writable writable).

Lemma keeps_ret {A} (a : A) : keeps (mret a).
Proof. intros s. reflexivity. Qed.

Lemma keeps_raise {A} e : keeps (raise (A := A) e).
Proof. intros s. reflexivity. Qed.

Lemma keeps_wait {A} q : keeps (wait (A := A) q).
Proof. intros s. reflexivity. Qed.

Lemma keeps_bind {A B} (m : M A) (k : A → M B) :
  keeps m → (∀ a, keeps (k a)) → keeps (m ≫= k).
Proof.
  intros Hm Hk s. specialize (Hm s). unfold mbind, M_bind.
  destruct (m s) as [a s'|e s'|q s']; simpl in *; try done.
  etrans; [exact Hm | apply Hk].
Qed.

Lemma keeps_finally {A} (body : M A) (cleanup : M unit) :
  keeps body → keeps cleanup → keeps (finally body cleanup).
Proof.
  intros Hb Hc s. specialize (Hb s). unfold finally.
  destruct (body s) as [a s'|e s'|q s']; simpl in *; try done.
  all: specialize (Hc s'); destruct (cleanup s') as [? s''|? s''|? s''];
    simpl in *; by etrans.
Qed.

Lemma keeps_getattr n : keeps (getattr n).
Proof. intros s. unfold getattr. by destruct (attrs s !! n). Qed.

Lemma keeps_setattr n v : writable n → keeps (setattr n v).
Proof. intros Hn s. by apply R_attr. Qed.

Lemma keeps_emit e : loggable e → keeps (emit e).
Proof. intros He s. by apply R_log. Qed.

Lemma keeps_as_int n v : keeps (as_int n v).
Proof. destruct v; apply keeps_ret || apply keeps_raise. Qed.

Lemma keeps_as_bool n v : keeps (as_bool n v).
Proof. destruct v; apply keeps_ret || apply keeps_raise. Qed.

Lemma keeps_getattr_int n : keeps (getattr_int n).
Proof. apply keeps_bind; [apply keeps_getattr | intros; apply keeps_as_int]. Qed.

Lemma keeps_getattr_bool n : keeps (getattr_bool n).
Proof. apply keeps_bind; [apply keeps_getattr | intros; apply keeps_as_bool]. Qed.

Lemma keeps_create n : keeps (create n).
Proof. intros s. apply R_pipeline. Qed.

Lemma keeps_configure id f : keeps (configure id f).
Proof. intros s. apply R_pipeline. Qed.

Lemma keeps_connect a o b i : keeps (connect a o b i).
Proof. intros s. apply R_links. Qed.

Lemma keeps_set_node k n x : keeps (set_node k n x).
Proof. intros s. apply R_nodes. Qed.

Lemma keeps_get_node k : keeps (get_node k).
Proof. intros s. unfold get_node. by destruct (dict_get k (nodes s)). Qed.

Lemma keeps_node_keys : keeps node_keys.
Proof. intros s. reflexivity. Qed.

Lemma keeps_acquire : keeps acquire.
Proof. intros s. unfold acquire. destruct (lock s); [reflexivity | apply R_lock]. Qed.

Lemma keeps_release : keeps release.
Proof. intros s. apply R_lock. Qed.

Lemma keeps_with_lock {A} (body : M A) : keeps body → keeps (with_lock body).
Proof.
  intros Hb. apply keeps_bind; [apply keeps_acquire | intros _].
  apply keeps_finally; [done | apply keeps_release].
Qed.

Hint Resolve keeps_ret keeps_raise keeps_wait keeps_getattr keeps_setattr
  keeps_emit keeps_as_int keeps_as_bool keeps_getattr_int keeps_getattr_bool
  keeps_create keeps_configure keeps_connect keeps_set_node keeps_get_node
  keeps_node_keys keeps_acquire keeps_release keeps_with_lock keeps_finally : keeps.

(** Walks a chain of binds, leaving the primitives to the hints. *)
Ltac frame :=
  repeat first
    [ apply keeps_bind; [ | intros ? ]
    | case_decide
    | progress eauto with keeps ].

Lemma keeps_create_cam_rgb : keeps _create_cam_rgb.
Proof. unfold _create_cam_rgb. frame. Qed.

Lemma keeps_create_stereo : keeps _create_stereo.
Proof. unfold _create_stereo. frame. Qed.

Lemma keeps_open_queues keys queues :
  (∀ k, loggable (EvGetOutputQueue k 1 false)) → keeps (open_queues keys queues).
Proof.
  intros Hq. revert queues. induction keys as [|key keys IH]; intros queues; simpl.
  - apply keeps_ret.
  - apply keeps_bind; [apply keeps_get_node | intros [e|]]; [|apply IH].
    apply keeps_bind; [apply keeps_emit, Hq | intros _; apply IH].
Qed.

Lemma keeps_queue_get mode arrivals q :
  loggable (EvQueueGet q) → keeps (queue_get mode arrivals q).
Proof.
  intros Hq. unfold queue_get.
  destruct (arrivals !! q), mode; frame.
Qed.

Lemma keeps_getCvFrame data : keeps (getCvFrame data).
Proof. destruct data; simpl; eauto with keeps. Qed.

Lemma loop_slots_writable_all items :
  Forall writable loop_slots → slots_writable items.
Proof.
  intros Hw. apply Forall_forall. intros item _ k Hk.
  rewrite Forall_forall in Hw. by eapply Hw, slot_of_loop_slots.
Qed.

Lemma keeps_dispatch name data :
  (∀ k, slot_of name = Some k → writable k) → keeps (dispatch name data).
Proof.
  intros Hw. unfold slot_of in Hw. unfold dispatch.
  pose proof (keeps_getCvFrame data).
  repeat case_decide;
    first [ apply keeps_ret
          | apply keeps_bind; [done | intros ?; apply keeps_setattr, Hw; reflexivity] ].
Qed.

Lemma keeps_poll_all mode arrivals items :
  slots_writable items → (∀ q, loggable (EvQueueGet q)) →
  keeps (poll_all mode arrivals items).
Proof.
  intros Hw Hq. induction items as [|[name [q|]] rest IH]; simpl.
  - apply keeps_ret.
  - apply Forall_cons_1 in Hw as [Hname Hrest].
    apply keeps_bind; [|intros _; by apply IH].
    apply keeps_bind; [by apply keeps_queue_get | intros; by apply keeps_dispatch].
  - apply Forall_cons_1 in Hw as [_ Hrest].
    apply keeps_bind; [apply keeps_ret | intros _; by apply IH].
Qed.

Lemma keeps_iteration mode queues arrivals :
  slots_writable queues → (∀ q, loggable (EvQueueGet q)) →
  keeps (iteration mode queues arrivals).
Proof. intros. by apply keeps_with_lock, keeps_poll_all. Qed.

Lemma keeps_acquisition_loop mode queues inputs :
  slots_writable queues → (∀ q, loggable (EvQueueGet q)) →
  keeps (acquisition_loop mode queues inputs).
Proof.
  intros Hw Hq. induction inputs as [|arrivals rest IH]; simpl.
  - apply keeps_bind; [apply keeps_getattr_bool | intros [|]]; [apply keeps_ret|].
    apply keeps_bind; [by apply keeps_iteration | intros _; apply keeps_wait].
  - apply keeps_bind; [apply keeps_getattr_bool | intros [|]]; [apply keeps_ret|].
    apply keeps_bind; [by apply keeps_iteration | done].
Qed.

Lemma keeps_target mode inputs :
  Forall writable loop_slots →
  (∀ q, loggable (EvQueueGet q)) → (∀ k, loggable (EvGetOutputQueue k 1 false)) →
  loggable EvPipelineDeviceOpen → loggable EvPipelineDeviceClose →
  keeps (_target mode inputs).
Proof.
  intros Hw Hq Hk Ho Hc. unfold _target.
  apply keeps_bind; [apply keeps_create_cam_rgb | intros _].
  apply keeps_bind; [apply keeps_create_stereo | intros _].
  apply keeps_bind; [by apply keeps_emit | intros _].
  apply keeps_finally; [|by apply keeps_emit].
  apply keeps_bind; [apply keeps_node_keys | intros keys].
  apply keeps_bind; [by apply keeps_open_queues | intros queues].
  by apply keeps_acquisition_loop; [apply loop_slots_writable_all|].
Qed.

Lemma keeps_snapshot : keeps snapshot.
Proof.
  unfold snapshot. apply keeps_with_lock.
  apply keeps_bind; [apply keeps_getattr | intros d].
  apply keeps_bind; [apply keeps_getattr | intros l].
  destruct (is_none d || is_none l); apply keeps_ret.
Qed.

Lemma keeps_compute_3d : keeps compute_3d.
Proof.
  unfold compute_3d. apply keeps_bind; [apply keeps_snapshot | intros [t|[d l]]].
  - apply keeps_ret.
  - apply keeps_bind; [apply keeps_getattr | intros q].
    apply keeps_bind; [|intros; apply keeps_ret].
    unfold cv2_reprojectImageTo3D. destruct d, q; apply keeps_ret || apply keeps_raise.
Qed.

End Frame.

(** ** An attribute left as it was *)

Section Unchanged.
Context {num : Type} `{!Backend num}.
Implicit Types (s : state (num := num)).

Global Instance unchanged_preorder k : PreOrder (unchanged (num := num) k).
Proof.
  split; [by intros s | intros s1 s2 s3 H12 H23].
  unfold unchanged in *. congruence.
Qed.

Lemma unchanged_attr k n v s :
  n ≠ k → unchanged k s (set_attrs (insert n v) s).
Proof. intros Hn. unfold unchanged. simpl. by rewrite lookup_insert_ne. Qed.

Lemma loop_slots_writable k :
  k ∉ loop_slots → Forall (λ n, n ≠ k) loop_slots.
Proof. intros Hk. apply Forall_forall. by intros n Hn ->. Qed.

(** The side conditions of the frame for [unchanged k]. *)
Ltac unchanged_frame :=
  first [ by apply unchanged_attr | by apply loop_slots_writable | done ].

(** The acquisition thread assigns no attribute outside [loop_slots]. *)
Lemma target_unchanged k mode inputs s :
  k ∉ loop_slots →
  attrs (outcome_state (_target mode inputs s)) !! k = attrs s !! k.
Proof.
  intros Hk.
  apply (keeps_target (unchanged k) (λ n, n ≠ k) (λ _, True)); unchanged_frame.
Qed.

Lemma iteration_unchanged k mode queues arrivals s :
  k ∉ loop_slots →
  attrs (outcome_state (iteration mode queues arrivals s)) !! k = attrs s !! k.
Proof.
  intros Hk.
  apply (keeps_iteration (unchanged k) (λ n, n ≠ k) (λ _, True));
    first [ by apply loop_slots_writable_all, loop_slots_writable | unchanged_frame ].
Qed.

(** [compute_3d] and the accessors assign nothing. *)
Lemma compute_3d_attrs s : attrs (outcome_state (compute_3d s)) = attrs s.
Proof.
  apply map_eq. intros k.
  apply (keeps_compute_3d (unchanged k)); unchanged_frame.
Qed.

Lemma read_attrs which s : attrs (outcome_state (read which s)) = attrs s.
Proof.
  destruct which; unfold read, rgb_frame, disparity, left_frame, right_frame,
    rectified_left_frame, rectified_right_frame, getattr;
    by destruct (attrs s !! _).
Qed.

(** No call assigns an attribute other than the stop flag and the slots of
    the loop. *)
Lemma after_unchanged k c s :
  k ∉ "_stopped" :: loop_slots → attrs (after c s) !! k = attrs s !! k.
Proof.
  intros Hk. apply not_elem_of_cons in Hk as [Hk1 Hk2].
  destruct c as [mode inputs| | |which]; simpl.
  - by apply target_unchanged.
  - by rewrite compute_3d_attrs.
  - unfold stop, setattr. simpl. by rewrite lookup_insert_ne.
  - by rewrite read_attrs.
Qed.

Lemma after_all_unchanged k cs s :
  k ∉ "_stopped" :: loop_slots → attrs (after_all cs s) !! k = attrs s !! k.
Proof.
  intros Hk. revert s. induction cs as [|c cs IH]; intros s; [done|].
  unfold after_all in *. simpl. rewrite IH. by apply after_unchanged.
Qed.

End Unchanged.

(** ** The constructor: calibration queries, homographies and Q *)

Section ConstructorClaims.
Context {num : Type} `{!Backend num}.
Implicit Types (s : state (num := num)) (calib : CalibrationHandler (num := num)).
Implicit Types (a : args).

Lemma not_loop_slot_Q : "_Q" ∉ "_stopped" :: loop_slots.
Proof. unfold loop_slots. rewrite !not_elem_of_cons. repeat split; try done. apply not_elem_of_nil. Qed.

(** C4: when the constructor returns (the left intrinsics have the entries
    it reads, both intrinsics are invertible and the baseline is not zero),
    [_Q] is the matrix [[1,0,0,-cx],[0,1,0,-cy],[0,0,0,f],[0,0,-1/baseline,0]]
    stored in single precision, with [f], [cx], [cy] the entries [0,0],
    [0,2], [1,2] of the left intrinsics; its entry [2,3] is [f] and its
    entry [3,2] is [-1/baseline]; and no later call (the acquisition thread,
    [compute_3d], [stop], an accessor) assigns [_Q] again. *)
Theorem C4_reprojection_matrix calib a f cx cy il ir s :
  entry (M_left_of calib a) 0 0 = Some f →
  entry (M_left_of calib a) 0 2 = Some cx →
  entry (M_left_of calib a) 1 2 = Some cy →
  np_linalg_inv (M_left_of calib a) = Some il →
  np_linalg_inv (M_right_of calib a) = Some ir →
  is_zero (getBaselineDistance calib) = false →
  ∃ s' q,
    __init__ calib a s = Done () s' ∧
    attrs s' !! "_Q" = Some (VArray q) ∧
    q = np_float32 (Q_matrix f cx cy (getBaselineDistance calib)) ∧
    entry q 2 3 = Some (float32 f) ∧
    entry q 3 2 = Some (float32 (fdiv (of_int (-1)) (getBaselineDistance calib))) ∧
    ∀ calls, attrs (after_all calls s') !! "_Q" = Some (VArray q).
Proof.
  intros Hf Hcx Hcy Hl Hr Hz.
  eexists _, _. split; [by apply init_returns|].
  assert (attrs (constructed calib a f cx cy il ir s) !! "_Q"
          = Some (VArray (np_float32 (Q_matrix f cx cy (getBaselineDistance calib)))))
    as HQ by (unfold constructed; cbn [attrs]; lookups; reflexivity).
  split; [exact HQ|]. repeat split.
  intros calls. rewrite after_all_unchanged; [exact HQ | apply not_loop_slot_Q].
Qed.

(** C5: when the constructor returns, [_H_left] is
    [M_right · R1 · inverse(M_left)] and [_H_right] is
    [M_right · R1 · inverse(M_right)], with [R1] the left rectification
    rotation in both; the right rotation is asked for and stored in [_R2],
    and neither homography depends on it. *)
Theorem C5_rectification_homographies calib a f cx cy il ir s :
  entry (M_left_of calib a) 0 0 = Some f →
  entry (M_left_of calib a) 0 2 = Some cx →
  entry (M_left_of calib a) 1 2 = Some cy →
  np_linalg_inv (M_left_of calib a) = Some il →
  np_linalg_inv (M_right_of calib a) = Some ir →
  is_zero (getBaselineDistance calib) = false →
  ∃ s' h_left h_right,
    __init__ calib a s = Done () s' ∧
    h_left = np_matmul (np_matmul (M_right_of calib a)
               (getStereoLeftRectificationRotation calib)) il ∧
    h_right = np_matmul (np_matmul (M_right_of calib a)
                (getStereoLeftRectificationRotation calib)) ir ∧
    attrs s' !! "_H_left" = Some (VArray h_left) ∧
    attrs s' !! "_H_right" = Some (VArray h_right) ∧
    attrs s' !! "_R2" = Some (VArray (getStereoRightRectificationRotation calib)) ∧
    EvGetStereoRightRectificationRotation ∈ log s' ∧
    ∀ r2, ∃ s'',
      __init__ (with_right_rotation r2 calib) a s = Done () s'' ∧
      attrs s'' !! "_H_left" = Some (VArray h_left) ∧
      attrs s'' !! "_H_right" = Some (VArray h_right).
Proof.
  intros Hf Hcx Hcy Hl Hr Hz.
  eexists _, _, _. split; [by apply init_returns|].
  do 2 (split; [reflexivity|]).
  unfold constructed, calibrated_attrs. cbn [attrs log].
  repeat split; lookups; try reflexivity.
  - unfold calibration_events. set_solver.
  - intros r2. eexists. split; [by apply init_returns|].
    unfold constructed, calibrated_attrs. cbn [attrs].
    split; lookups; reflexivity.
Qed.

(** C7, as the code has it: with a baseline of zero (and intrinsics that
    are otherwise fine) the constructor fails with [ZeroDivisionError], and
    the exception is the one raised by the division [-1.0 / baseline] in the
    rows of [Q]: the rows are evaluated, in the state the failure leaves,
    and that is where they fail.  No [_Q] is stored. *)
Theorem C7_zero_baseline_division calib a f cx cy il ir s :
  entry (M_left_of calib a) 0 0 = Some f →
  entry (M_left_of calib a) 0 2 = Some cx →
  entry (M_left_of calib a) 1 2 = Some cy →
  np_linalg_inv (M_left_of calib a) = Some il →
  np_linalg_inv (M_right_of calib a) = Some ir →
  is_zero (getBaselineDistance calib) = true →
  ∃ s',
    __init__ calib a s = Raised ZeroDivisionError s' ∧
    Q_rows s' = Raised ZeroDivisionError s' ∧
    attrs s' !! "_baseline" = Some (VFloat (getBaselineDistance calib)) ∧
    attrs s' !! "_Q" = attrs s !! "_Q".
Proof.
  destruct a as [[w h] [wm hm] e sp l]. unfold M_left_of, M_right_of. cbn [mono_size fst snd].
  intros Hf Hcx Hcy Hl Hr Hz.
  eexists. split.
  { run. rewrite Hl. run. rewrite Hr. run.
    rewrite Hf. run. rewrite Hcx. run. rewrite Hcy. run. rewrite Hz. reflexivity. }
  repeat split.
  - run. rewrite Hz. reflexivity.
  - run. reflexivity.
  - run. reflexivity.
Qed.

(** C10: the constructor asks for the RGB intrinsics at the mono width
    paired with the RGB height, and for the left and right intrinsics at
    the mono size; these are its only intrinsics queries, whatever the
    calibration answers, and [_M_rgb] is the answer to the first. *)
Theorem C10_intrinsics_queries calib a s :
  let wr := (rgb_size a).1 in
  let hr := (rgb_size a).2 in
  let wm := (mono_size a).1 in
  let hm := (mono_size a).2 in
  let s' := outcome_state (__init__ calib a s) in
  intrinsics_queries (log s') =
    intrinsics_queries (log s) ++ [(RGB, wm, hr); (LEFT, wm, hm); (RIGHT, wm, hm)] ∧
  attrs s' !! "_M_rgb" = Some (VArray (getCameraIntrinsics calib RGB wm hr)) ∧
  attrs s' !! "_M_left" = Some (VArray (getCameraIntrinsics calib LEFT wm hm)) ∧
  attrs s' !! "_M_right" = Some (VArray (getCameraIntrinsics calib RIGHT wm hm)) ∧
  attrs s' !! "_rgb_width" = Some (VInt wr).
Proof.
  destruct a as [[w h] [wm hm] e sp l]. cbn [rgb_size mono_size fst snd]. cbv zeta.
  unfold intrinsics_queries.
  remember (outcome_state (__init__ calib _ s)) as s' eqn:E. revert E.
  (* the state the constructor ends in, along each way it can end *)
  assert (∀ l0 : list event,
    omap intrinsics_query
      (log s ++ EvDeviceOpen :: EvReadCalibration :: EvGetCameraIntrinsics RGB wm h
         :: EvGetCameraIntrinsics LEFT wm hm :: EvGetCameraIntrinsics RIGHT wm hm :: l0)
    = omap intrinsics_query (log s) ++ [(RGB, wm, h); (LEFT, wm, hm); (RIGHT, wm, hm)]
      ++ omap intrinsics_query l0) as Hlog
    by (intros l0; by rewrite omap_app).
  run.
  destruct (np_linalg_inv (getCameraIntrinsics calib LEFT wm hm)) as [il|]; run;
    [|intros ->; cbn [log attrs]; lookups; rewrite <- !app_assoc; cbn [app];
       by rewrite Hlog].
  destruct (np_linalg_inv (getCameraIntrinsics calib RIGHT wm hm)) as [ir|]; run;
    [|intros ->; cbn [log attrs]; lookups; rewrite <- !app_assoc; cbn [app];
       by rewrite Hlog].
  destruct (entry (getCameraIntrinsics calib LEFT wm hm) 0 0) as [f|]; run;
    [|intros ->; cbn [log attrs]; lookups; rewrite <- !app_assoc; cbn [app];
       by rewrite Hlog].
  destruct (entry (getCameraIntrinsics calib LEFT wm hm) 0 2) as [cx|]; run;
    [|intros ->; cbn [log attrs]; lookups; rewrite <- !app_assoc; cbn [app];
       by rewrite Hlog].
  destruct (entry (getCameraIntrinsics calib LEFT wm hm) 1 2) as [cy|]; run;
    [|intros ->; cbn [log attrs]; lookups; rewrite <- !app_assoc; cbn [app];
       by rewrite Hlog].
  destruct (is_zero (getBaselineDistance calib)); run;
    intros ->; cbn [log attrs]; lookups; rewrite <- !app_assoc; cbn [app];
       by rewrite Hlog.
Qed.

End ConstructorClaims.

(** ** The constructor on the exact backend *)

Import Exact.

(** The hypotheses of C4 hold for the device of [Exact.calibration], and
    the matrix comes out as [[1,0,0,-640],[0,1,0,-360],[0,0,0,860],
    [0,0,-2/15,0]]. *)
Lemma C4_reprojection_matrix_witness :
  entry (M_left_of (calibration (15 # 2)) default_args) 0 0 = Some 860%Q ∧
  entry (M_left_of (calibration (15 # 2)) default_args) 0 2 = Some 640%Q ∧
  entry (M_left_of (calibration (15 # 2)) default_args) 1 2 = Some 360%Q ∧
  np_linalg_inv (M_left_of (calibration (15 # 2)) default_args) = Some inv_left ∧
  np_linalg_inv (M_right_of (calibration (15 # 2)) default_args) = Some inv_right ∧
  is_zero (getBaselineDistance (calibration (15 # 2))) = false ∧
  ∃ s' q,
    __init__ (calibration (15 # 2)) default_args empty_state = Done () s' ∧
    attrs s' !! "_Q" = Some (VArray q) ∧
    q = np_float32 (Q_matrix 860%Q 640%Q 360%Q (15 # 2)) ∧
    entry q 2 3 = Some 860%Q ∧
    entry q 3 2 = Some (-2 # 15)%Q ∧
    ∀ calls, attrs (after_all calls s') !! "_Q" = Some (VArray q).
Proof.
  do 6 (split; [reflexivity|]).
  pose proof (C4_reprojection_matrix (calibration (15 # 2)) default_args
                860%Q 640%Q 360%Q inv_left inv_right empty_state
                eq_refl eq_refl eq_refl eq_refl eq_refl eq_refl) as run.
  exact run.
Defined.

Lemma C5_rectification_homographies_witness :
  entry (M_left_of (calibration (15 # 2)) default_args) 0 0 = Some 860%Q ∧
  entry (M_left_of (calibration (15 # 2)) default_args) 0 2 = Some 640%Q ∧
  entry (M_left_of (calibration (15 # 2)) default_args) 1 2 = Some 360%Q ∧
  np_linalg_inv (M_left_of (calibration (15 # 2)) default_args) = Some inv_left ∧
  np_linalg_inv (M_right_of (calibration (15 # 2)) default_args) = Some inv_right ∧
  is_zero (getBaselineDistance (calibration (15 # 2))) = false ∧
  ∃ s' h_left h_right,
    __init__ (calibration (15 # 2)) default_args empty_state = Done () s' ∧
    h_left = np_matmul (np_matmul (M_right_of (calibration (15 # 2)) default_args)
               (getStereoLeftRectificationRotation (calibration (15 # 2)))) inv_left ∧
    h_right = np_matmul (np_matmul (M_right_of (calibration (15 # 2)) default_args)
                (getStereoLeftRectificationRotation (calibration (15 # 2)))) inv_right ∧
    attrs s' !! "_H_left" = Some (VArray h_left) ∧
    attrs s' !! "_H_right" = Some (VArray h_right) ∧
    attrs s' !! "_R2"
      = Some (VArray (getStereoRightRectificationRotation (calibration (15 # 2)))) ∧
    EvGetStereoRightRectificationRotation ∈ log s' ∧
    ∀ r2, ∃ s'',
      __init__ (with_right_rotation r2 (calibration (15 # 2))) default_args empty_state
        = Done () s'' ∧
      attrs s'' !! "_H_left" = Some (VArray h_left) ∧
      attrs s'' !! "_H_right" = Some (VArray h_right).
Proof.
  do 6 (split; [reflexivity|]).
  pose proof (C5_rectification_homographies (calibration (15 # 2)) default_args
                860%Q 640%Q 360%Q inv_left inv_right empty_state
                eq_refl eq_refl eq_refl eq_refl eq_refl eq_refl) as run.
  exact run.
Defined.

(** On that device the right homography is the identity and the left one
    is not: [M_right · I · inverse(M_right)] against
    [M_right · I · inverse(M_left)]. *)
Example homographies_of_fresh :
  attrs (outcome_state fresh) !! "_H_right" = Some (VArray identity3) ∧
  attrs (outcome_state fresh) !! "_H_left"
    = Some (VArray [[431 # 430; 0; -236 # 43]; [0; 431 # 430; -122 # 43]; [0; 0; 1]]%Q).
Proof. split; vm_compute; reflexivity. Qed.

Lemma C7_zero_baseline_division_witness :
  entry (M_left_of (calibration 0) default_args) 0 0 = Some 860%Q ∧
  entry (M_left_of (calibration 0) default_args) 0 2 = Some 640%Q ∧
  entry (M_left_of (calibration 0) default_args) 1 2 = Some 360%Q ∧
  np_linalg_inv (M_left_of (calibration 0) default_args) = Some inv_left ∧
  np_linalg_inv (M_right_of (calibration 0) default_args) = Some inv_right ∧
  is_zero (getBaselineDistance (calibration 0)) = true ∧
  ∃ s',
    __init__ (calibration 0) default_args empty_state = Raised ZeroDivisionError s' ∧
    Q_rows s' = Raised ZeroDivisionError s' ∧
    attrs s' !! "_baseline" = Some (VFloat 0%Q) ∧
    attrs s' !! "_Q" = attrs (empty_state (num := Q)) !! "_Q".
Proof.
  do 6 (split; [reflexivity|]).
  pose proof (C7_zero_baseline_division (calibration 0) default_args
                860%Q 640%Q 360%Q inv_left inv_right empty_state
                eq_refl eq_refl eq_refl eq_refl eq_refl eq_refl) as run.
  exact run.
Defined.

(** C7, against the claim: with a baseline of zero nothing rejects the
    calibration before [Q].  The constructor reads the focal length and the
    principal point, goes on to the rows of [Q], and fails there, in the
    division by the baseline, with [ZeroDivisionError]. *)
Lemma C7_baseline_not_checked :
  ∃ s',
    __init__ (calibration 0) default_args empty_state = Raised ZeroDivisionError s' ∧
    attrs s' !! "_focal_length" = Some (VFloat 860%Q) ∧
    attrs s' !! "_cx" = Some (VFloat 640%Q) ∧
    attrs s' !! "_cy" = Some (VFloat 360%Q) ∧
    Q_rows s' = Raised ZeroDivisionError s'.
Proof.
  exists (outcome_state (__init__ (calibration 0) default_args empty_state)).
  split; [|split; [|split; [|split]]]; vm_compute; reflexivity.
Qed.

(** ** Building the pipeline *)

Section Pipeline.
Context {num : Type} `{!Backend num}.
Implicit Types (s : state (num := num)).

Lemma alter_app_here {A} (f : A → A) (l1 l2 : list A) :
  alter f (length l1) (l1 ++ l2) = l1 ++ alter f 0%nat l2.
Proof. rewrite <- (Nat.add_0_r (length l1)) at 1. apply alter_app_r. Qed.

(** Brings the pipeline to the form [p ++ nodes]. *)
Ltac pipeline_norm :=
  repeat (progress
    (rewrite <- ?app_assoc; cbn [app];
     rewrite ?length_alter, ?List.length_app; cbn [length];
     rewrite <- ?Nat.add_assoc; cbn [Nat.add];
     repeat first [ rewrite alter_app_here | rewrite alter_app_r ];
     cbn [alter list_alter app])).

Lemma create_cam_rgb_supported w h r s :
  attrs s !! "_rgb_width" = Some (VInt w) →
  attrs s !! "_rgb_height" = Some (VInt h) →
  preset_of_height h = Some r →
  _create_cam_rgb s = Done () (with_color w h r s).
Proof.
  destruct s as [d nd pl lk lg lc]. cbn [attrs].
  intros Hw Hh Hr. unfold preset_of_height in Hr.
  unfold _create_cam_rgb. run. rewrite Hh. run.
  case_decide.
  - simplify_eq. run. rewrite Hw, Hh. run.
    unfold with_color, color_nodes, mk_link. f_equal. f_equal.
    + by rewrite List.length_app, Nat.add_1_r.
    + pipeline_norm. reflexivity.
    + by rewrite List.length_app, Nat.add_1_r.
  - run. rewrite Hh. run. case_decide; [|done].
    simplify_eq. run. rewrite Hw, Hh. run.
    unfold with_color, color_nodes, mk_link. f_equal. f_equal.
    + by rewrite List.length_app, Nat.add_1_r.
    + pipeline_norm. reflexivity.
    + by rewrite List.length_app, Nat.add_1_r.
Qed.

Lemma create_cam_rgb_unsupported w h s :
  attrs s !! "_rgb_width" = Some (VInt w) →
  attrs s !! "_rgb_height" = Some (VInt h) →
  preset_of_height h = None →
  _create_cam_rgb s = Raised (NotImplementedError w h) (with_bare_color s).
Proof.
  destruct s as [d nd pl lk lg lc]. cbn [attrs].
  intros Hw Hh Hr. unfold preset_of_height in Hr.
  unfold _create_cam_rgb. run. rewrite Hh. run.
  case_decide; [done|]. run. rewrite Hh. run. case_decide; [done|].
  run. rewrite Hw. run. rewrite Hh. run.
  unfold with_bare_color, color_nodes. f_equal. f_equal.
  pipeline_norm. reflexivity.
Qed.

Lemma create_stereo_returns lr ext sub s :
  attrs s !! "_lr_check" = Some (VBool lr) →
  attrs s !! "_extended_disparity" = Some (VBool ext) →
  attrs s !! "_subpixel" = Some (VBool sub) →
  _create_stereo s = Done () (with_stereo lr ext sub s).
Proof.
  destruct s as [d nd pl lk lg lc]. cbn [attrs].
  intros Hlr Hext Hsub.
  unfold _create_stereo. run. rewrite Hlr. run. rewrite Hext. run. rewrite Hsub. run.
  unfold with_stereo, stereo_nodes, mk_link.
  cbn [attrs nodes pipeline links log lock].
  pipeline_norm. reflexivity.
Qed.

End Pipeline.

(** ** The acquisition thread up to its loop *)

Section Thread.
Context {num : Type} `{!Backend num}.
Implicit Types (s : state (num := num)).

Lemma bind_Done {A B} (m : M A) (k : A → M B) s a s' :
  m s = Done a s' → (m ≫= k) s = k a s'.
Proof. unfold mbind, M_bind. by intros ->. Qed.

Lemma bind_Raised {A B} (m : M A) (k : A → M B) s e s' :
  m s = Raised e s' → (m ≫= k) s = Raised e s'.
Proof. unfold mbind, M_bind. by intros ->. Qed.

Lemma bind_Waiting {A B} (m : M A) (k : A → M B) s q s' :
  m s = Waiting q s' → (m ≫= k) s = Waiting q s'.
Proof. unfold mbind, M_bind. by intros ->. Qed.

(** When every key has its entry in [_nodes], a queue is asked for under
    every key, with [maxSize=1] and [blocking=False]. *)
Lemma open_queues_all keys queues s :
  Forall (λ k, ∃ e, dict_get k (nodes s) = Some (Some e)) keys →
  open_queues keys queues s =
    Done (foldl (λ q k, dict_set k (Some k) q) queues keys)
         (set_log (λ l, l ++ map (λ k, EvGetOutputQueue k 1 false) keys) s).
Proof.
  revert queues s. induction keys as [|key keys IH]; intros queues s Hk.
  - destruct s. unfold set_log. simpl. by rewrite app_nil_r.
  - apply Forall_cons_1 in Hk as [[e He] Hk]. cbn [open_queues].
    rewrite (bind_Done _ _ s (Some e) s); [|unfold get_node; by rewrite He].
    rewrite (bind_Done _ _ s () (set_log (λ l, l ++ [EvGetOutputQueue key 1 false]) s));
      [|done].
    rewrite IH; [|done]. destruct s. unfold set_log. simpl.
    by rewrite <- app_assoc.
Qed.

(** On an instance fresh from the constructor, with a supported height,
    [_target] comes down to its loop over [camera_queues]. *)
Lemma target_starts mode inputs w h r lr ext sub s :
  attrs s !! "_rgb_width" = Some (VInt w) →
  attrs s !! "_rgb_height" = Some (VInt h) →
  attrs s !! "_lr_check" = Some (VBool lr) →
  attrs s !! "_extended_disparity" = Some (VBool ext) →
  attrs s !! "_subpixel" = Some (VBool sub) →
  preset_of_height h = Some r →
  nodes s = [] →
  _target mode inputs s =
    finally (acquisition_loop mode camera_queues inputs) (emit EvPipelineDeviceClose)
      (started w h r lr ext sub s).
Proof.
  intros Hw Hh Hlr Hext Hsub Hr Hn. unfold _target.
  rewrite (bind_Done _ _ _ _ _ (create_cam_rgb_supported w h r s Hw Hh Hr)).
  rewrite (bind_Done _ _ _ _ _
             (create_stereo_returns lr ext sub (with_color w h r s) Hlr Hext Hsub)).
  set (built := with_stereo lr ext sub (with_color w h r s)).
  assert ((nodes built).*1 = camera_keys) as Hkeys
    by (unfold built, with_stereo, with_color; cbn [nodes]; by rewrite Hn).
  assert (Forall (λ k, ∃ e, dict_get k (nodes built) = Some (Some e)) camera_keys)
    as Hall.
  { unfold built, with_stereo, with_color, camera_keys. cbn [nodes]. rewrite Hn.
    repeat (apply Forall_cons_2; [eexists; reflexivity|]). apply Forall_nil_2. }
  rewrite (bind_Done _ _ built () (set_log (λ l, l ++ [EvPipelineDeviceOpen]) built));
    [|done].
  unfold finally at 1.
  rewrite (bind_Done _ _ _ camera_keys (set_log (λ l, l ++ [EvPipelineDeviceOpen]) built));
    [|unfold node_keys; by rewrite <- Hkeys].
  rewrite (bind_Done _ _ _ _ _
             (open_queues_all camera_keys []
                (set_log (λ l, l ++ [EvPipelineDeviceOpen]) built) Hall)).
  unfold finally, started. fold built.
  replace (set_log _ (set_log _ built))
    with (set_log (λ l, l ++ EvPipelineDeviceOpen
                          :: map (λ k, EvGetOutputQueue k 1 false) camera_keys) built)
    by (destruct built; unfold set_log; simpl; by rewrite <- app_assoc).
  reflexivity.
Qed.

(** With a height that is not supported the thread ends in
    [_create_cam_rgb], before it opens the device. *)
Lemma target_unsupported mode inputs w h s :
  attrs s !! "_rgb_width" = Some (VInt w) →
  attrs s !! "_rgb_height" = Some (VInt h) →
  preset_of_height h = None →
  _target mode inputs s = Raised (NotImplementedError w h) (with_bare_color s).
Proof.
  intros Hw Hh Hr. unfold _target.
  by rewrite (bind_Raised _ _ _ _ _ (create_cam_rgb_unsupported w h s Hw Hh Hr)).
Qed.

End Thread.

(** ** The loop body *)

Section Loop.
Context {num : Type} `{!Backend num}.
Implicit Types (s : state (num := num)).

Lemma dispatch_frame name f s :
  dispatch name (ImgFrame f) s = Done () (store name f s).
Proof.
  unfold dispatch, store, slot_of.
  repeat case_decide; reflexivity.
Qed.

(** With a frame ready the queue hands it out. *)
Lemma queue_get_ready mode arrivals q f s :
  arrivals !! q = Some f →
  queue_get mode arrivals q s
    = Done (ImgFrame f) (set_log (λ l, l ++ [EvQueueGet q]) s).
Proof. intros Hq. unfold queue_get. by rewrite Hq. Qed.

(** With none ready [get()] waits, and nothing has changed. *)
Lemma queue_get_waits arrivals q s :
  arrivals !! q = None → queue_get GetWaits arrivals q s = Waiting q s.
Proof. intros Hq. unfold queue_get. by rewrite Hq. Qed.

(** When every queue has a frame ready the pass over the queues goes
    through. *)
Lemma poll_all_ready mode arrivals items s :
  all_ready arrivals items → ∃ s', poll_all mode arrivals items s = Done () s'.
Proof.
  revert s. induction items as [|[name [q|]] rest IH]; intros s Hready.
  - by eexists.
  - apply Forall_cons_1 in Hready as [Hq Hrest].
    destruct (Hq q eq_refl) as [f Hf]. cbn [poll_all].
    destruct (IH (store name f (set_log (λ l, l ++ [EvQueueGet q]) s)) Hrest)
      as [s' Hs'].
    exists s'.
    erewrite bind_Done; [exact Hs'|].
    erewrite bind_Done; [apply dispatch_frame|]. by apply queue_get_ready.
  - apply Forall_cons_1 in Hready as [_ Hrest]. cbn [poll_all].
    destruct (IH s Hrest) as [s' Hs']. exists s'.
    by erewrite bind_Done.
Qed.

(** At the first queue with no frame ready the pass waits, in the state the
    queues before it have left; the queues after it are not asked. *)
Lemma poll_all_waits arrivals pre name q post s :
  all_ready arrivals pre → arrivals !! q = None →
  ∃ s', poll_all GetWaits arrivals pre s = Done () s' ∧
        poll_all GetWaits arrivals (pre ++ (name, Some q) :: post) s = Waiting q s'.
Proof.
  revert s. induction pre as [|[name' [q'|]] pre IH]; intros s Hready Hq.
  - exists s. split; [done|]. cbn [app poll_all].
    erewrite bind_Waiting; [done|]. erewrite bind_Waiting; [done|].
    by apply queue_get_waits.
  - apply Forall_cons_1 in Hready as [Hq' Hrest].
    destruct (Hq' q' eq_refl) as [f Hf]. cbn [app poll_all].
    destruct (IH (store name' f (set_log (λ l, l ++ [EvQueueGet q']) s)) Hrest Hq)
      as (s' & Hpre & Hall).
    exists s'. split.
    + erewrite bind_Done; [exact Hpre|].
      erewrite bind_Done; [apply dispatch_frame|]. by apply queue_get_ready.
    + erewrite bind_Done; [exact Hall|].
      erewrite bind_Done; [apply dispatch_frame|]. by apply queue_get_ready.
  - apply Forall_cons_1 in Hready as [_ Hrest]. cbn [app poll_all].
    destruct (IH s Hrest Hq) as (s' & Hpre & Hall).
    exists s'. split; by erewrite bind_Done.
Qed.

(** The lock around the pass. *)
Lemma iteration_Done mode queues arrivals s s' :
  lock s = false →
  poll_all mode arrivals queues (set_lock true s) = Done () s' →
  iteration mode queues arrivals s = Done () (set_lock false s').
Proof.
  intros Hl Hp. unfold iteration, with_lock.
  erewrite bind_Done; [|unfold acquire; by rewrite Hl].
  unfold finally. by rewrite Hp.
Qed.

Lemma iteration_Waiting mode queues arrivals s q s' :
  lock s = false →
  poll_all mode arrivals queues (set_lock true s) = Waiting q s' →
  iteration mode queues arrivals s = Waiting q s'.
Proof.
  intros Hl Hp. unfold iteration, with_lock.
  erewrite bind_Done; [|unfold acquire; by rewrite Hl].
  unfold finally. by rewrite Hp.
Qed.

Global Instance same_lock_preorder : PreOrder (same_lock (num := num)).
Proof.
  split; [by intros s | intros s1 s2 s3 H12 H23].
  unfold same_lock in *. congruence.
Qed.

Lemma poll_all_lock mode arrivals items s :
  lock (outcome_state (poll_all mode arrivals items s)) = lock s.
Proof.
  apply (keeps_poll_all same_lock (λ _, True) (λ _, True)); try done.
  by apply Forall_forall.
Qed.

End Loop.

(** ** The log of the acquisition thread *)

Section Log.
Context {num : Type} `{!Backend num}.
Implicit Types (s : state (num := num)).

Global Instance log_extends_preorder P : PreOrder (log_extends (num := num) P).
Proof.
  split.
  - intros s. exists []. by rewrite app_nil_r.
  - intros s1 s2 s3 (l1 & H1 & P1) (l2 & H2 & P2). exists (l1 ++ l2).
    split; [by rewrite H2, H1, app_assoc | by apply Forall_app].
Qed.

Lemma log_extends_same P s s' : log s' = log s → log_extends P s s'.
Proof. intros Hl. exists []. by rewrite app_nil_r. Qed.

Lemma log_extends_event P e s :
  P e → log_extends P s (set_log (λ l, l ++ [e]) s).
Proof. intros He. exists [e]. split; [done | by apply Forall_singleton]. Qed.

Lemma target_log mode inputs s :
  log_extends latest_frame_wins s (outcome_state (_target mode inputs s)).
Proof.
  apply (keeps_target (log_extends latest_frame_wins) (λ _, True) latest_frame_wins);
    first [ by intros; apply log_extends_same
          | by intros; apply log_extends_event
          | by apply Forall_forall
          | done ].
Qed.

End Log.

(** ** Claims on the pipeline and on the loop *)

Section ThreadClaims.
Context {num : Type} `{!Backend num}.
Implicit Types (s : state (num := num)).

(** C6: the pipeline build ([_create_cam_rgb] then [_create_stereo]) on an
    instance whose [_rgb_height] is 1080 or 2160 returns, the color camera
    carrying the preset of that height and the video size as given; with any
    other height [_create_cam_rgb] raises [NotImplementedError], and so does
    the thread body [_target], with the log as it was (the device has not
    been opened, no queue asked for) and a color camera with no resolution
    and no video size set on it: the height is not replaced by another. *)
Theorem C6_supported_heights w h lr ext sub s :
  attrs s !! "_rgb_width" = Some (VInt w) →
  attrs s !! "_rgb_height" = Some (VInt h) →
  attrs s !! "_lr_check" = Some (VBool lr) →
  attrs s !! "_extended_disparity" = Some (VBool ext) →
  attrs s !! "_subpixel" = Some (VBool sub) →
  (h = 1080 ∨ h = 2160 →
     ∃ r s',
       (_create_cam_rgb ;; _create_stereo) s = Done () s' ∧
       preset_of_height h = Some r ∧
       (h = 1080 → r = THE_1080_P) ∧ (h = 2160 → r = THE_4_K) ∧
       pipeline s' = (pipeline s
                        ++ color_nodes (Some r) (Some (w, h)) (Some false) (Some 1))
                       ++ stereo_nodes lr ext sub ∧
       log s' = log s) ∧
  (h ≠ 1080 → h ≠ 2160 →
     ∀ mode inputs, ∃ s',
       _create_cam_rgb s = Raised (NotImplementedError w h) s' ∧
       _target mode inputs s = Raised (NotImplementedError w h) s' ∧
       log s' = log s ∧
       pipeline s' = pipeline s ++ color_nodes None None None None).
Proof.
  intros Hw Hh Hlr Hext Hsub. split.
  - intros Hsup.
    assert (∃ r, preset_of_height h = Some r ∧
                 (h = 1080 → r = THE_1080_P) ∧ (h = 2160 → r = THE_4_K))
      as (r & Hr & H1 & H2).
    { unfold preset_of_height. destruct Hsup as [-> | ->]; simpl; eexists; by repeat split. }
    exists r, (with_stereo lr ext sub (with_color w h r s)).
    split; [|done].
    rewrite (bind_Done _ _ _ _ _ (create_cam_rgb_supported w h r s Hw Hh Hr)).
    by apply create_stereo_returns.
  - intros H1 H2 mode inputs.
    assert (preset_of_height h = None) as Hr
      by (unfold preset_of_height; by repeat case_decide).
    exists (with_bare_color s). repeat split.
    + by apply create_cam_rgb_unsupported.
    + by apply target_unsupported.
Qed.

(** C8, as the code has it: every queue the thread asks for is asked for
    with [maxSize=1] and [blocking=False]; a pass of the loop calls [get()]
    on every queue in the order of the dict, and [get()] waits for a frame:
    when every queue has a frame ready the pass completes and gives the lock
    back, and at the first queue with none ready the pass stops and waits
    there, the lock held, in the state the queues before it have left (the
    queues after it have not been asked). *)
Theorem C8_poll_waits_for_every_queue :
  (∀ mode inputs s name m b,
     EvGetOutputQueue name m b ∈ log (outcome_state (_target mode inputs s)) →
     EvGetOutputQueue name m b ∈ log s ∨ (m = 1 ∧ b = false)) ∧
  (∀ queues arrivals s,
     lock s = false → all_ready arrivals queues →
     ∃ s', iteration GetWaits queues arrivals s = Done () s' ∧ lock s' = false) ∧
  (∀ pre name q post arrivals s,
     lock s = false → all_ready arrivals pre → arrivals !! q = None →
     ∃ s', poll_all GetWaits arrivals pre (set_lock true s) = Done () s' ∧
           iteration GetWaits (pre ++ (name, Some q) :: post) arrivals s
             = Waiting q s' ∧
           lock s' = true).
Proof.
  split; [|split].
  - intros mode inputs s name m b Hin.
    destruct (target_log mode inputs s) as (l & Hl & HP).
    rewrite Hl in Hin. apply elem_of_app in Hin as [Hin | Hin]; [by left | right].
    rewrite Forall_forall in HP. exact (HP _ Hin).
  - intros queues arrivals s Hl Hready.
    destruct (poll_all_ready GetWaits arrivals queues (set_lock true s) Hready)
      as [s' Hs'].
    exists (set_lock false s'). split; [by apply iteration_Done | done].
  - intros pre name q post arrivals s Hl Hready Hq.
    destruct (poll_all_waits arrivals pre name q post (set_lock true s) Hready Hq)
      as (s' & Hpre & Hall).
    exists s'. repeat split; [done | by apply iteration_Waiting |].
    pose proof (poll_all_lock GetWaits arrivals pre (set_lock true s)) as Hlock.
    by rewrite Hpre in Hlock.
Qed.

End ThreadClaims.

(** ** Reconstruction *)

Section Reconstruction.
Context {num : Type} `{!Backend num}.
Implicit Types (s : state (num := num)) (calib : CalibrationHandler (num := num)).
Implicit Types (a : args).

Lemma read_slot which v s :
  attrs s !! slot_read which = Some v → read which s = Done v s.
Proof.
  destruct which; unfold read, rgb_frame, disparity, left_frame, right_frame,
    rectified_left_frame, rectified_right_frame, getattr; simpl; by intros ->.
Qed.

(** The four ways [compute_3d] can go. *)
Lemma compute_3d_locked s :
  lock s = true → compute_3d s = Waiting "_data_lock" s.
Proof.
  destruct s as [d nd pl lk lg lc]. cbn [lock]. intros ->.
  unfold compute_3d, snapshot. reflexivity.
Qed.

Lemma compute_3d_no_attribute s :
  lock s = false → attrs s !! "_disparity" = None →
  compute_3d s = Raised (AttributeError "_disparity") s.
Proof.
  destruct s as [d nd pl lk lg lc]. cbn [lock attrs]. intros -> Hd.
  unfold compute_3d, snapshot. run. rewrite Hd. reflexivity.
Qed.

Lemma compute_3d_not_ready d l s :
  lock s = false →
  attrs s !! "_disparity" = Some d →
  attrs s !! "_rectified_left_frame" = Some l →
  is_none d || is_none l = true →
  compute_3d s = Done (VNone, VNone, VNone) s.
Proof.
  destruct s as [dict nd pl lk lg lc]. cbn [lock attrs]. intros -> Hd Hl Hn.
  unfold compute_3d, snapshot. run. rewrite Hd. run. rewrite Hl. run.
  rewrite Hn. reflexivity.
Qed.

Lemma compute_3d_ready d l q s :
  lock s = false →
  attrs s !! "_disparity" = Some (VFrame d) →
  attrs s !! "_rectified_left_frame" = Some (VFrame l) →
  attrs s !! "_Q" = Some (VArray q) →
  compute_3d s = Done (VPoints (reprojectImageTo3D d q), VFrame d, VFrame l) s.
Proof.
  destruct s as [dict nd pl lk lg lc]. cbn [lock attrs]. intros -> Hd Hl Hq.
  unfold compute_3d, snapshot. run. rewrite Hd. run. rewrite Hl. run.
  cbn [is_none orb]. run. rewrite Hq. reflexivity.
Qed.

(** A constructed instance has every accessor slot at [None] and, unless
    the dictionary it started from had one, no [_disparity]. *)
Lemma constructed_reads_none calib a f cx cy il ir s which :
  read which (constructed calib a f cx cy il ir s)
    = Done VNone (constructed calib a f cx cy il ir s).
Proof.
  apply read_slot. unfold constructed. cbn [attrs].
  destruct which; cbn [slot_read]; lookups; reflexivity.
Qed.

Lemma constructed_no_disparity calib a f cx cy il ir s :
  attrs s !! "_disparity" = None →
  attrs (constructed calib a f cx cy il ir s) !! "_disparity" = None.
Proof.
  intros Hd. unfold constructed, calibrated_attrs. cbn [attrs]. lookups. exact Hd.
Qed.

(** So [compute_3d] on a constructed instance raises [AttributeError]. *)
Lemma compute_3d_after_constructor calib a f cx cy il ir s :
  attrs s !! "_disparity" = None →
  compute_3d (constructed calib a f cx cy il ir s)
    = Raised (AttributeError "_disparity") (constructed calib a f cx cy il ir s).
Proof.
  intros Hd. apply compute_3d_no_attribute; [done|].
  by apply constructed_no_disparity.
Qed.

(** The queues of the camera store nothing in [_disparity]: the thread
    leaves it as it was. *)
Lemma camera_queues_no_disparity :
  Forall (λ item : string * option string,
            ∀ k, slot_of item.1 = Some k → k ≠ "_disparity") camera_queues.
Proof.
  unfold camera_queues, camera_keys. cbn [map].
  repeat (apply Forall_cons_2; [intros k; vm_compute; by intros [= <-]|]).
  apply Forall_nil_2.
Qed.

Lemma target_keeps_disparity mode inputs w h lr ext sub s :
  attrs s !! "_rgb_width" = Some (VInt w) →
  attrs s !! "_rgb_height" = Some (VInt h) →
  attrs s !! "_lr_check" = Some (VBool lr) →
  attrs s !! "_extended_disparity" = Some (VBool ext) →
  attrs s !! "_subpixel" = Some (VBool sub) →
  nodes s = [] →
  attrs (outcome_state (_target mode inputs s)) !! "_disparity"
    = attrs s !! "_disparity".
Proof.
  intros Hw Hh Hlr Hext Hsub Hn.
  destruct (preset_of_height h) as [r|] eqn:Hr.
  - rewrite (target_starts mode inputs w h r lr ext sub s); try done.
    transitivity (attrs (started w h r lr ext sub s) !! "_disparity"); [|done].
    apply (keeps_finally (unchanged "_disparity")).
    + apply (keeps_acquisition_loop (unchanged "_disparity")
               (λ n, n ≠ "_disparity") (λ _, True));
        first [ by intros; apply unchanged_attr
              | exact camera_queues_no_disparity | done ].
    + by apply (keeps_emit (unchanged "_disparity") (λ _, True)).
  - by rewrite (target_unsupported mode inputs w h s).
Qed.

(** Whatever is called on a constructed instance, [compute_3d] never
    returns a point cloud: when it returns at all, it returns
    [(None, None, None)]. *)
Lemma compute_3d_never_ready calib a f cx cy il ir s calls t s' :
  compute_3d (after_all calls (constructed calib a f cx cy il ir s)) = Done t s' →
  t = (VNone, VNone, VNone).
Proof.
  set (s1 := after_all calls _).
  assert (attrs s1 !! "_rectified_left_frame" = Some VNone) as Hleft.
  { unfold s1. rewrite after_all_unchanged.
    - unfold constructed. cbn [attrs]. lookups. reflexivity.
    - unfold loop_slots. rewrite !not_elem_of_cons.
      repeat split; try done. apply not_elem_of_nil. }
  destruct (lock s1) eqn:Hlock; [by rewrite compute_3d_locked|].
  destruct (attrs s1 !! "_disparity") as [d|] eqn:Hd;
    [|by rewrite compute_3d_no_attribute].
  rewrite (compute_3d_not_ready d VNone); try done; [congruence|].
  by rewrite orb_true_r.
Qed.

End Reconstruction.

(** ** The thread and the accessors on the exact backend *)

(** Settles a decidable statement on concrete data by evaluation. *)
Ltac by_evaluation := apply (bool_decide_unpack _); vm_compute; exact I.

(** C6 at the default size (1920, 1080): the hypotheses hold on the
    constructed instance, and the build returns with the preset
    [THE_1080_P]. *)
Lemma C6_supported_heights_witness :
  attrs camera !! "_rgb_width" = Some (VInt 1920) ∧
  attrs camera !! "_rgb_height" = Some (VInt 1080) ∧
  attrs camera !! "_lr_check" = Some (VBool true) ∧
  attrs camera !! "_extended_disparity" = Some (VBool true) ∧
  attrs camera !! "_subpixel" = Some (VBool true) ∧
  ∃ r s',
    (_create_cam_rgb ;; _create_stereo) camera = Done () s' ∧
    preset_of_height 1080 = Some r ∧
    r = THE_1080_P ∧
    pipeline s' = (pipeline camera
                     ++ color_nodes (Some r) (Some (1920, 1080)) (Some false) (Some 1))
                    ++ stereo_nodes true true true ∧
    log s' = log camera.
Proof.
  do 5 (split; [vm_compute; reflexivity|]).
  destruct (C6_supported_heights 1920 1080 true true true camera
              eq_refl eq_refl eq_refl eq_refl eq_refl) as [Hsup _].
  destruct (Hsup (or_introl eq_refl)) as (r & s' & Hrun & Hr & H1 & _ & Hp & Hl).
  exists r, s'. repeat split; try assumption. exact (H1 eq_refl).
Defined.

(** C6, against the claim: with a color size of (1280, 720) the
    constructor returns, having opened the device and asked it for the
    intrinsics at that height; the build fails only afterwards, in the
    thread, which has then not opened the device itself.  The failure does
    not come before all device input and output. *)
Lemma C6_calibration_read_before_the_build :
  __init__ (calibration (15 # 2)) args_720 empty_state = Done () camera_720 ∧
  (EvDeviceOpen ∈ log camera_720) ∧
  (EvGetCameraIntrinsics RGB 1280 720 ∈ log camera_720) ∧
  ∃ s', _target GetWaits [all_arrive] camera_720
          = Raised (NotImplementedError 1280 720) s' ∧
        log s' = log camera_720 ∧
        (EvPipelineDeviceOpen ∉ log s').
Proof.
  split; [vm_compute; reflexivity|].
  split; [by_evaluation|]. split; [by_evaluation|].
  exists (with_bare_color camera_720).
  split; [vm_compute; reflexivity|].
  split; [vm_compute; reflexivity | by_evaluation].
Qed.

Lemma all_arrive_ready : all_ready all_arrive camera_queues.
Proof.
  unfold all_ready, camera_queues, camera_keys. cbn [map].
  repeat (apply Forall_cons_2; [intros q [= <-]; eexists; vm_compute; reflexivity|]).
  apply Forall_nil_2.
Defined.

(** C8 on the constructed instance: with every queue ready the pass
    completes; with the color queue empty it waits there, having asked no
    queue. *)
Lemma C8_poll_waits_for_every_queue_witness :
  (∃ s', iteration GetWaits camera_queues all_arrive running = Done () s' ∧
         lock s' = false) ∧
  (∃ s', poll_all GetWaits no_color [] (set_lock true running) = Done () s' ∧
         iteration GetWaits camera_queues no_color running
           = Waiting "color_camera" s' ∧
         lock s' = true).
Proof.
  destruct (C8_poll_waits_for_every_queue (num := Q)) as (_ & Hready & Hwait).
  split.
  - exact (Hready camera_queues all_arrive running eq_refl all_arrive_ready).
  - exact (Hwait [] "color_camera" "color_camera" (tail camera_queues) no_color running
             eq_refl (Forall_nil_2 _) eq_refl).
Defined.

(** C8, against the claim: the color queue has no frame ready and the five
    other queues have one.  The pass does not go on to them: it stays at
    the color queue, the lock held, and the left frame that was ready is not
    stored.  Were [get()] to hand out [None] instead of waiting, the pass
    would end in [AttributeError] at [data.getCvFrame()], with the same
    slots untouched. *)
Lemma C8_empty_queue_stops_the_pass :
  (∃ s', _target GetWaits [no_color] camera = Waiting "color_camera" s' ∧
         lock s' = true ∧
         no_color !! "mono_left" = Some mono_left_frame ∧
         attrs s' !! "_left_frame" = Some VNone ∧
         (EvQueueGet "mono_left" ∉ log s')) ∧
  (∃ s', _target GetReturnsNone [no_color] camera
           = Raised (AttributeError "getCvFrame") s' ∧
         attrs s' !! "_left_frame" = Some VNone ∧
         (EvQueueGet "mono_left" ∉ log s')).
Proof.
  split.
  - exists (outcome_state (_target GetWaits [no_color] camera)).
    split; [vm_compute; reflexivity|]. do 3 (split; [vm_compute; reflexivity|]).
    by_evaluation.
  - exists (outcome_state (_target GetReturnsNone [no_color] camera)).
    split; [vm_compute; reflexivity|]. split; [vm_compute; reflexivity|].
    by_evaluation.
Qed.

(** The thread of the constructed instance reaches its loop in [running],
    with the six queues of [camera_queues]. *)
Example target_reaches_running mode inputs :
  _target mode inputs camera =
    finally (acquisition_loop mode camera_queues inputs) (emit EvPipelineDeviceClose)
      running.
Proof. by apply target_starts. Qed.

(** C1, on the code: one pass of the loop in which every queue delivers its
    frame.  The color, rectified-left and rectified-right frames go to
    [_color_frame], [_left_rect_frame] and [_right_rect_frame], the frame of
    the stereo queue is taken and stored nowhere, and the accessors
    [rgb_frame], [disparity], [rectified_left_frame] and
    [rectified_right_frame], which read [_rgb_frame], [_depth_frame],
    [_rectified_left_frame] and [_rectified_right_frame], still return
    [None].  Only [left_frame] and [right_frame] return the frame
    received. *)
Theorem C1_received_frames_miss_the_accessors :
  ∃ s', iteration GetWaits camera_queues all_arrive running = Done () s' ∧
    (attrs s' !! "_color_frame" = Some (VFrame color_frame) ∧
     read RgbFrame s' = Done VNone s') ∧
    ((EvQueueGet "stereo" ∈ log s') ∧
     attrs s' !! "_disparity" = None ∧
     read Disparity s' = Done VNone s') ∧
    (attrs s' !! "_left_rect_frame" = Some (VFrame rect_left_frame) ∧
     read RectifiedLeftFrame s' = Done VNone s') ∧
    (attrs s' !! "_right_rect_frame" = Some (VFrame rect_right_frame) ∧
     read RectifiedRightFrame s' = Done VNone s') ∧
    read LeftFrame s' = Done (VFrame mono_left_frame) s' ∧
    read RightFrame s' = Done (VFrame mono_right_frame) s'.
Proof.
  exists (outcome_state (iteration GetWaits camera_queues all_arrive running)).
  split; [vm_compute; reflexivity|].
  split; [split; vm_compute; reflexivity|].
  split; [split; [by_evaluation | split; vm_compute; reflexivity]|].
  split; [split; vm_compute; reflexivity|].
  split; [split; vm_compute; reflexivity|].
  split; vm_compute; reflexivity.
Qed.

(** C2, on the code: on a constructed instance the six accessors return
    [None], and [compute_3d] raises [AttributeError]: it reads
    [self._disparity], which the constructor never assigns (the constructor
    assigns [_depth_frame]).  Once the thread has started and waits for its
    first frame it holds the lock, and [compute_3d] waits for the lock. *)
Theorem C2_compute_3d_raises_before_first_frame :
  (∀ which, read which camera = Done VNone camera) ∧
  attrs camera !! "_disparity" = None ∧
  attrs camera !! "_depth_frame" = Some VNone ∧
  compute_3d camera = Raised (AttributeError "_disparity") camera ∧
  ∃ s', _target GetWaits [] camera = Waiting "color_camera" s' ∧
        (∀ which, read which s' = Done VNone s') ∧
        compute_3d s' = Waiting "_data_lock" s'.
Proof.
  split; [intros []; vm_compute; reflexivity|].
  do 3 (split; [vm_compute; reflexivity|]).
  exists (outcome_state (_target GetWaits [] camera)).
  split; [vm_compute; reflexivity|].
  split; [intros []; vm_compute; reflexivity | vm_compute; reflexivity].
Qed.

(** * Further properties of the code *)

(** ** The constructor, on every calibration *)

Section ConstructorCases.
Context {num : Type} `{!Backend num}.
Implicit Types (s : state (num := num)) (calib : CalibrationHandler (num := num)).
Implicit Types (a : args).

(** Closes the log and the attribute facts of one way the constructor
    ends. *)
Ltac close_case :=
  first
    [ reflexivity
    | by (cbn [log]; rewrite <- !app_assoc)
    | by (unfold unassigned; cbn [attrs]; repeat apply Forall_cons_2;
          try apply Forall_nil_2; lookups)
    | by (cbn [attrs]; lookups)
    | by auto ].

(** The constructor ends in one of five ways, decided by the calibration
    alone. *)
Lemma init_cases calib a s : init_case calib a s (__init__ calib a s).
Proof.
  remember (__init__ calib a s) as o eqn:E. revert E.
  destruct (np_linalg_inv (M_left_of calib a)) as [il|] eqn:Hl;
    [|destruct a as [[w h] [wm hm] e sp l];
      unfold M_left_of in Hl; cbn [mono_size fst snd] in Hl; run; rewrite Hl; run;
      intros ->; apply init_left_singular; close_case].
  destruct (np_linalg_inv (M_right_of calib a)) as [ir|] eqn:Hr;
    [|destruct a as [[w h] [wm hm] e sp l];
      unfold M_left_of, M_right_of in *; cbn [mono_size fst snd] in *;
      run; rewrite Hl; run; rewrite Hr; run;
      intros ->; eapply init_right_singular; close_case].
  destruct (entry (M_left_of calib a) 0 0) as [f|] eqn:Hf;
    [|destruct a as [[w h] [wm hm] e sp l];
      unfold M_left_of, M_right_of in *; cbn [mono_size fst snd] in *;
      run; rewrite Hl; run; rewrite Hr; run; rewrite Hf; run;
      intros ->; eapply init_no_entry; close_case].
  destruct (entry (M_left_of calib a) 0 2) as [cx|] eqn:Hcx;
    [|destruct a as [[w h] [wm hm] e sp l];
      unfold M_left_of, M_right_of in *; cbn [mono_size fst snd] in *;
      run; rewrite Hl; run; rewrite Hr; run; rewrite Hf; run; rewrite Hcx; run;
      intros ->; eapply init_no_entry; close_case].
  destruct (entry (M_left_of calib a) 1 2) as [cy|] eqn:Hcy;
    [|destruct a as [[w h] [wm hm] e sp l];
      unfold M_left_of, M_right_of in *; cbn [mono_size fst snd] in *;
      run; rewrite Hl; run; rewrite Hr; run; rewrite Hf; run; rewrite Hcx; run;
      rewrite Hcy; run;
      intros ->; eapply init_no_entry; close_case].
  destruct (is_zero (getBaselineDistance calib)) eqn:Hz.
  - destruct a as [[w h] [wm hm] e sp l].
    unfold M_left_of, M_right_of in *; cbn [mono_size fst snd] in *.
    run; rewrite Hl; run; rewrite Hr; run; rewrite Hf; run; rewrite Hcx; run.
    rewrite Hcy; run; rewrite Hz.
    intros ->. eapply (init_zero_baseline _ _ _ f cx cy il ir); close_case.
  - intros ->. rewrite (init_returns calib _ f cx cy il ir s); try done.
    by apply init_constructed.
Qed.

(** A constructor that returns has met the conditions of [init_returns],
    and leaves [constructed]. *)
Lemma init_Done_constructed calib a s s' :
  __init__ calib a s = Done () s' →
  ∃ f cx cy il ir,
    calibrated calib a f cx cy il ir ∧ s' = constructed calib a f cx cy il ir s.
Proof.
  intros Hrun. pose proof (init_cases calib a s) as Hcase. rewrite Hrun in Hcase.
  inversion Hcase as [| | | |f cx cy il ir Hcal Heq]. by exists f, cx, cy, il, ir.
Qed.

(** X1: the constructor returns exactly when the left intrinsics have the
    three entries it reads, both intrinsics can be inverted and the baseline
    is not zero; the instance it returns is then [constructed], whatever
    dictionary and log it started from. *)
Theorem X1_constructor_returns_iff calib a s s' :
  __init__ calib a s = Done () s' ↔
  ∃ f cx cy il ir,
    calibrated calib a f cx cy il ir ∧ s' = constructed calib a f cx cy il ir s.
Proof.
  split; [apply init_Done_constructed|].
  intros (f & cx & cy & il & ir & (Hf & Hcx & Hcy & Hl & Hr & Hz) & ->).
  by apply init_returns.
Qed.

(** X2: when the left or the right intrinsics cannot be inverted the
    constructor raises [LinAlgError]; it has then closed the device it
    opened without asking for the baseline, and has assigned neither
    [_H_right], [_baseline], [_Q], the stop flag nor any frame slot. *)
Theorem X2_singular_intrinsics calib a s :
  np_linalg_inv (M_left_of calib a) = None ∨ np_linalg_inv (M_right_of calib a) = None →
  ∃ s', __init__ calib a s = Raised LinAlgError s' ∧
        log s' = log s ++ calibration_events_aborted a ∧
        (EvGetBaselineDistance ∉ calibration_events_aborted a) ∧
        unassigned ["_H_right"; "_baseline"; "_Q"; "_stopped"; "_rgb_frame"] s s'.
Proof.
  intros Hsing. pose proof (init_cases calib a s) as Hcase.
  assert (EvGetBaselineDistance ∉ calibration_events_aborted a) as Hno.
  { unfold calibration_events_aborted. rewrite !not_elem_of_cons.
    repeat split; try done. apply not_elem_of_nil. }
  inversion Hcase as [s' Hl Hlog Hun Heq|il s' Hl Hr Hlog Hh Hun Heq
                     |il ir s' Hl Hr|f cx cy il ir s' _ _ _ Hl Hr|f cx cy il ir Hcal];
    try (destruct Hsing; congruence).
  - exists s'. repeat split; try done.
    unfold unassigned in *. repeat (apply Forall_cons_1 in Hun as [? Hun]).
    repeat apply Forall_cons_2; try apply Forall_nil_2; assumption.
  - exists s'. repeat split; try done.
    unfold unassigned in *. repeat (apply Forall_cons_1 in Hun as [? Hun]).
    repeat apply Forall_cons_2; try apply Forall_nil_2; assumption.
  - destruct Hcal as (_ & _ & _ & Hl & Hr & _). destruct Hsing; congruence.
Qed.

(** The log of the constructor, however it ends: the whole session, or
    the session without the baseline. *)
Lemma init_log calib a s :
  log (outcome_state (__init__ calib a s)) = log s ++ calibration_events a ∨
  log (outcome_state (__init__ calib a s)) = log s ++ calibration_events_aborted a.
Proof.
  destruct (init_cases calib a s); cbn [outcome_state];
    [by right | by right | by left | by left | by left].
Qed.

(** X3: whatever the calibration answers and however the constructor ends,
    it opens the device once and closes it again: its events are one
    session, opened first and closed last, with only calibration reads in
    between (the pipeline is not started, no queue is asked for), and the
    field of view of the right camera is never asked for. *)
Theorem X3_calibration_session calib a s :
  ∃ queries,
    log (outcome_state (__init__ calib a s))
      = log s ++ EvDeviceOpen :: queries ++ [EvDeviceClose] ∧
    Forall calibration_query queries ∧
    (EvGetFov RIGHT ∉ queries).
Proof.
  destruct (init_log calib a s) as [Hlog | Hlog]; rewrite Hlog.
  - exists (removelast (tail (calibration_events a))).
    split; [reflexivity|]. split; [simpl; by repeat constructor|].
    simpl. rewrite !not_elem_of_cons. repeat split; try done. apply not_elem_of_nil.
  - exists (removelast (tail (calibration_events_aborted a))).
    split; [reflexivity|]. split; [simpl; by repeat constructor|].
    simpl. rewrite !not_elem_of_cons. repeat split; try done. apply not_elem_of_nil.
Qed.


End ConstructorCases.

(** ** The readers: [compute_3d] and the accessors *)

Section Readers.
Context {num : Type} `{!Backend num}.
Implicit Types (s : state (num := num)) (calib : CalibrationHandler (num := num)).
Implicit Types (a : args).

(** X5: [compute_3d] leaves the instance exactly as it found it, however it
    ends: it assigns nothing, asks nothing of the device, and gives the lock
    back on every path, also when it raises [AttributeError] inside the
    [with] block. *)
Theorem X5_compute_3d_leaves_no_trace s : outcome_state (compute_3d s) = s.
Proof.
  destruct s as [d nd pl lk lg lc]. destruct lc; [by rewrite compute_3d_locked|].
  unfold compute_3d, snapshot. run.
  destruct (d !! "_disparity") as [v|]; [|reflexivity]. run.
  destruct (d !! "_rectified_left_frame") as [v'|]; [|reflexivity]. run.
  destruct (is_none v || is_none v'); [reflexivity|]. run.
  destruct (d !! "_Q") as [q|]; [|reflexivity].
  unfold cv2_reprojectImageTo3D. destruct v, q; reflexivity.
Qed.

(** X6: on an instance the constructor has returned, whatever is called
    afterwards (the acquisition thread on any frames, [stop], the
    accessors, [compute_3d] itself), [compute_3d] never returns a point
    cloud: when it returns, it returns [(None, None, None)].  The loop never
    assigns [_rectified_left_frame], which [compute_3d] reads. *)
Theorem X6_compute_3d_never_returns_a_cloud calib a s0 s1 :
  __init__ calib a s0 = Done () s1 →
  ∀ calls t s', compute_3d (after_all calls s1) = Done t s' →
                t = (VNone, VNone, VNone).
Proof.
  intros Hinit calls t s' Hrun.
  destruct (init_Done_constructed calib a s0 s1 Hinit)
    as (f & cx & cy & il & ir & _ & ->).
  by eapply compute_3d_never_ready.
Qed.

(** X7: on an instance the constructor has returned, the accessors
    [rgb_frame], [disparity], [rectified_left_frame] and
    [rectified_right_frame] return [None] after any sequence of calls: no
    code assigns the attributes they read once the constructor has set them
    to [None]. *)
Theorem X7_four_accessors_stay_none calib a s0 s1 :
  __init__ calib a s0 = Done () s1 →
  ∀ calls which,
    which ∈ [RgbFrame; Disparity; RectifiedLeftFrame; RectifiedRightFrame] →
    read which (after_all calls s1) = Done VNone (after_all calls s1).
Proof.
  intros Hinit calls which Hwhich.
  destruct (init_Done_constructed calib a s0 s1 Hinit)
    as (f & cx & cy & il & ir & _ & ->).
  apply read_slot. rewrite after_all_unchanged.
  - unfold constructed. cbn [attrs].
    rewrite !elem_of_cons, elem_of_nil in Hwhich.
    destruct Hwhich as [-> | [-> | [-> | [-> | []]]]]; cbn [slot_read]; lookups;
      reflexivity.
  - unfold loop_slots. rewrite !elem_of_cons, elem_of_nil in Hwhich.
    rewrite !not_elem_of_cons.
    destruct Hwhich as [-> | [-> | [-> | [-> | []]]]]; cbn [slot_read];
      repeat split; try done; apply not_elem_of_nil.
Qed.

End Readers.

(** X6 and X7 on the constructed instance of the exact backend. *)
Lemma X6_compute_3d_never_returns_a_cloud_witness :
  __init__ (calibration (15 # 2)) default_args empty_state = Done () camera ∧
  ∀ calls t s', compute_3d (after_all calls camera) = Done t s' →
                t = (VNone, VNone, VNone).
Proof.
  assert (__init__ (calibration (15 # 2)) default_args empty_state = Done () camera)
    as Hinit by (vm_compute; reflexivity).
  split; [exact Hinit|].
  exact (X6_compute_3d_never_returns_a_cloud _ _ _ _ Hinit).
Defined.

Lemma X7_four_accessors_stay_none_witness :
  __init__ (calibration (15 # 2)) default_args empty_state = Done () camera ∧
  ∀ calls which,
    which ∈ [RgbFrame; Disparity; RectifiedLeftFrame; RectifiedRightFrame] →
    read which (after_all calls camera) = Done VNone (after_all calls camera).
Proof.
  assert (__init__ (calibration (15 # 2)) default_args empty_state = Done () camera)
    as Hinit by (vm_compute; reflexivity).
  split; [exact Hinit|].
  exact (X7_four_accessors_stay_none _ _ _ _ Hinit).
Defined.

Lemma X2_singular_intrinsics_witness :
  (np_linalg_inv (M_left_of flat_calibration default_args) = None
   ∨ np_linalg_inv (M_right_of flat_calibration default_args) = None) ∧
  ∃ s', __init__ flat_calibration default_args empty_state = Raised LinAlgError s' ∧
        log s' = log (empty_state (num := Q)) ++ calibration_events_aborted default_args ∧
        (EvGetBaselineDistance ∉ calibration_events_aborted default_args) ∧
        unassigned ["_H_right"; "_baseline"; "_Q"; "_stopped"; "_rgb_frame"]
          empty_state s'.
Proof.
  split; [left; reflexivity|].
  exact (X2_singular_intrinsics flat_calibration default_args empty_state
           (or_introl eq_refl)).
Defined.

(** ** The passes of the acquisition loop *)

Section Passes.
Context {num : Type} `{!Backend num}.
Implicit Types (s : state (num := num)).

Lemma store_log name f s : log (store name f s) = log s.
Proof. unfold store. by destruct (slot_of name). Qed.

(** A pass in which every queue is ready asks each queue once, in the
    order of the dict, and asks nothing else. *)
Lemma poll_all_ready_log mode arrivals items s :
  all_ready arrivals items →
  ∃ s', poll_all mode arrivals items s = Done () s' ∧
        log s' = log s ++ map EvQueueGet (omap snd items).
Proof.
  revert s. induction items as [|[name [q|]] rest IH]; intros s Hready.
  - exists s. split; [done|]. by rewrite app_nil_r.
  - apply Forall_cons_1 in Hready as [Hq Hrest].
    destruct (Hq q eq_refl) as [f Hf]. cbn [poll_all].
    destruct (IH (store name f (set_log (λ l, l ++ [EvQueueGet q]) s)) Hrest)
      as (s' & Hs' & Hlog).
    exists s'. split.
    + erewrite bind_Done; [exact Hs'|].
      erewrite bind_Done; [apply dispatch_frame|]. by apply queue_get_ready.
    + rewrite Hlog, store_log. cbn [omap list_omap snd map set_log log].
      by rewrite <- app_assoc.
  - apply Forall_cons_1 in Hready as [_ Hrest]. cbn [poll_all].
    destruct (IH s Hrest) as (s' & Hs' & Hlog). exists s'.
    split; [by erewrite bind_Done | exact Hlog].
Qed.

Lemma slot_of_color : slot_of "color_camera" = Some "_color_frame".
Proof. by vm_compute. Qed.
Lemma slot_of_stereo : slot_of "stereo" = None.
Proof. by vm_compute. Qed.
Lemma slot_of_mono_left : slot_of "mono_left" = Some "_left_frame".
Proof. by vm_compute. Qed.
Lemma slot_of_mono_right : slot_of "mono_right" = Some "_right_frame".
Proof. by vm_compute. Qed.
Lemma slot_of_rectified_left : slot_of "rectified_left" = Some "_left_rect_frame".
Proof. by vm_compute. Qed.
Lemma slot_of_rectified_right : slot_of "rectified_right" = Some "_right_rect_frame".
Proof. by vm_compute. Qed.

(** One pass over the queues of the camera, in closed form. *)
Lemma pass_received mode arrivals fc fs fl fr frl frr s :
  lock s = false →
  arrivals !! "color_camera" = Some fc →
  arrivals !! "stereo" = Some fs →
  arrivals !! "mono_left" = Some fl →
  arrivals !! "mono_right" = Some fr →
  arrivals !! "rectified_left" = Some frl →
  arrivals !! "rectified_right" = Some frr →
  iteration mode camera_queues arrivals s = Done () (received fc fl fr frl frr s).
Proof.
  destruct s as [d nd pl lk lg lc]. cbn [lock]. intros -> Hc Hs Hl Hr Hrl Hrr.
  rewrite (iteration_Done mode camera_queues arrivals _
             (set_lock true (received fc fl fr frl frr
                {| attrs := d; nodes := nd; pipeline := pl; links := lk;
                   log := lg; lock := false |}))); [reflexivity | done |].
  unfold camera_queues, camera_keys. cbn [map poll_all].
  do 6 (erewrite bind_Done;
        [|erewrite bind_Done; [apply dispatch_frame | by apply queue_get_ready]]).
  unfold store. rewrite slot_of_color, slot_of_stereo, slot_of_mono_left, slot_of_mono_right,
    slot_of_rectified_left, slot_of_rectified_right.
  cbv beta iota delta [received camera_keys set_lock set_log set_attrs attrs log
    nodes pipeline links lock map].
  rewrite <- !app_assoc. reflexivity.
Qed.

Lemma all_ready_camera arrivals :
  all_ready arrivals camera_queues →
  ∃ fc fs fl fr frl frr,
    arrivals !! "color_camera" = Some fc ∧ arrivals !! "stereo" = Some fs ∧
    arrivals !! "mono_left" = Some fl ∧ arrivals !! "mono_right" = Some fr ∧
    arrivals !! "rectified_left" = Some frl ∧ arrivals !! "rectified_right" = Some frr.
Proof.
  unfold all_ready, camera_queues, camera_keys. cbn [map]. intros Hready.
  repeat (apply Forall_cons_1 in Hready as [?Hq Hready]).
  destruct (Hq _ eq_refl) as [fc ?], (Hq0 _ eq_refl) as [fs ?],
    (Hq1 _ eq_refl) as [fl ?], (Hq2 _ eq_refl) as [fr ?],
    (Hq3 _ eq_refl) as [frl ?], (Hq4 _ eq_refl) as [frr ?].
  by exists fc, fs, fl, fr, frl, frr.
Qed.

(** X8: [left_frame] and [right_frame] return the frames of the latest
    completed pass: after two passes over the queues of the camera, each
    with every queue ready, they return the left and right frames of the
    second pass, whatever the first one delivered. *)
Theorem X8_left_right_latest_frame mode first second fl fr s :
  lock s = false →
  all_ready first camera_queues → all_ready second camera_queues →
  second !! "mono_left" = Some fl → second !! "mono_right" = Some fr →
  ∃ s1 s2,
    iteration mode camera_queues first s = Done () s1 ∧
    iteration mode camera_queues second s1 = Done () s2 ∧
    read LeftFrame s2 = Done (VFrame fl) s2 ∧
    read RightFrame s2 = Done (VFrame fr) s2.
Proof.
  intros Hlock H1 H2 Hl Hr.
  destruct (all_ready_camera first H1)
    as (fc1 & fs1 & fl1 & fr1 & frl1 & frr1 & ? & ? & ? & ? & ? & ?).
  destruct (all_ready_camera second H2)
    as (fc2 & fs2 & fl2 & fr2 & frl2 & frr2 & ? & ? & Hl2 & Hr2 & ? & ?).
  assert (fl2 = fl) as -> by congruence. assert (fr2 = fr) as -> by congruence.
  exists (received fc1 fl1 fr1 frl1 frr1 s),
         (received fc2 fl fr frl2 frr2 (received fc1 fl1 fr1 frl1 frr1 s)).
  split; [by eapply pass_received|]. split; [by eapply pass_received|].
  split; apply read_slot; unfold received; cbn [attrs slot_read]; lookups;
    reflexivity.
Qed.

(** X9: a pass in which every queue has a frame ready completes, and takes
    exactly one message from every queue, in the order of the dict: the log
    grows by one [get()] per queue and by nothing else, whichever way
    [get()] behaves on an empty queue. *)
Theorem X9_pass_takes_one_frame_per_queue mode queues arrivals s :
  lock s = false → all_ready arrivals queues →
  ∃ s', iteration mode queues arrivals s = Done () s' ∧
        log s' = log s ++ map EvQueueGet (omap snd queues).
Proof.
  intros Hlock Hready.
  destruct (poll_all_ready_log mode arrivals queues (set_lock true s) Hready)
    as (s' & Hs' & Hlog).
  exists (set_lock false s'). split; [by apply iteration_Done|].
  destruct s, s'. exact Hlog.
Qed.

End Passes.

(** ** The thread of a constructed instance *)

Section ThreadRun.
Context {num : Type} `{!Backend num}.
Implicit Types (s : state (num := num)).

Global Instance reads_queues_preorder : PreOrder (reads_queues (num := num)).
Proof.
  split.
  - intros s. repeat split. reflexivity.
  - intros s1 s2 s3 (Hp1 & Hl1 & Hn1 & Hg1) (Hp2 & Hl2 & Hn2 & Hg2).
    repeat split; [congruence | congruence | congruence | by etrans].
Qed.

(** The loop, with the device closed behind it, only reads the queues. *)
Lemma loop_reads_queues mode queues inputs s :
  reads_queues s (outcome_state (acquisition_loop mode queues inputs s)).
Proof.
  apply (keeps_acquisition_loop reads_queues (λ _, True) queue_get_event).
  - intros n v s' _. repeat split. by apply log_extends_same.
  - intros e s' He. repeat split. by apply log_extends_event.
  - intros b s'. repeat split. by apply log_extends_same.
  - apply Forall_forall. done.
  - done.
Qed.

(** What the constructor has left for the builders. *)
Lemma constructed_build calib a f cx cy il ir s :
  let s1 := constructed calib a f cx cy il ir s in
  attrs s1 !! "_rgb_width" = Some (VInt (rgb_size a).1) ∧
  attrs s1 !! "_rgb_height" = Some (VInt (rgb_size a).2) ∧
  attrs s1 !! "_lr_check" = Some (VBool (lr_check a)) ∧
  attrs s1 !! "_extended_disparity" = Some (VBool (extended_disparity a)) ∧
  attrs s1 !! "_subpixel" = Some (VBool (subpixel a)) ∧
  attrs s1 !! "_stopped" = Some (VBool false).
Proof.
  unfold constructed, calibrated_attrs. cbn [attrs].
  repeat split; lookups; reflexivity.
Qed.

(** The thread of an instance with a supported height, run to its loop. *)
Lemma target_of_built mode inputs a r s :
  attrs s !! "_rgb_width" = Some (VInt (rgb_size a).1) →
  attrs s !! "_rgb_height" = Some (VInt (rgb_size a).2) →
  attrs s !! "_lr_check" = Some (VBool (lr_check a)) →
  attrs s !! "_extended_disparity" = Some (VBool (extended_disparity a)) →
  attrs s !! "_subpixel" = Some (VBool (subpixel a)) →
  nodes s = [] →
  preset_of_height (rgb_size a).2 = Some r →
  _target mode inputs s =
    finally (acquisition_loop mode camera_queues inputs) (emit EvPipelineDeviceClose)
      (started (rgb_size a).1 (rgb_size a).2 r
         (lr_check a) (extended_disparity a) (subpixel a) s).
Proof. intros. by apply target_starts. Qed.

(** Where the thread stands when [_target] is over, or waits. *)
Lemma thread_run mode inputs a r s :
  attrs s !! "_rgb_width" = Some (VInt (rgb_size a).1) →
  attrs s !! "_rgb_height" = Some (VInt (rgb_size a).2) →
  attrs s !! "_lr_check" = Some (VBool (lr_check a)) →
  attrs s !! "_extended_disparity" = Some (VBool (extended_disparity a)) →
  attrs s !! "_subpixel" = Some (VBool (subpixel a)) →
  nodes s = [] →
  preset_of_height (rgb_size a).2 = Some r →
  let built := started (rgb_size a).1 (rgb_size a).2 r
                 (lr_check a) (extended_disparity a) (subpixel a) s in
  let o := _target mode inputs s in
  ∃ gets, Forall queue_get_event gets ∧
    pipeline (outcome_state o) = pipeline built ∧
    links (outcome_state o) = links built ∧
    nodes (outcome_state o) = nodes built ∧
    log (outcome_state o) = log built ++ gets ++ closing o.
Proof.
  intros Hw Hh Hlr Hext Hsub Hn Hr built o. unfold o.
  rewrite (target_of_built mode inputs a r s Hw Hh Hlr Hext Hsub Hn Hr).
  fold built.
  destruct (loop_reads_queues mode camera_queues inputs built)
    as (Hp & Hl & Hnd & gets & Hlog & Hgets).
  exists gets. split; [done|]. unfold finally, emit.
  destruct (acquisition_loop mode camera_queues inputs built) as [[] s'|e s'|q s'];
    cbn [outcome_state closing] in *.
  - repeat split; [exact Hp | exact Hl | exact Hnd |].
    destruct s' as [d nd pl lk lg lc]. cbn [log set_log] in *.
    by rewrite Hlog, <- app_assoc.
  - repeat split; [exact Hp | exact Hl | exact Hnd |].
    destruct s' as [d nd pl lk lg lc]. cbn [log set_log] in *.
    by rewrite Hlog, <- app_assoc.
  - repeat split; [exact Hp | exact Hl | exact Hnd |].
    by rewrite Hlog, app_nil_r.
Qed.

Lemma thread_run_constructed mode inputs calib a r s0 s1 :
  __init__ calib a s0 = Done () s1 →
  preset_of_height (rgb_size a).2 = Some r →
  let built := started (rgb_size a).1 (rgb_size a).2 r
                 (lr_check a) (extended_disparity a) (subpixel a) s1 in
  let o := _target mode inputs s1 in
  ∃ gets, Forall queue_get_event gets ∧
    pipeline (outcome_state o) = pipeline built ∧
    links (outcome_state o) = links built ∧
    nodes (outcome_state o) = nodes built ∧
    log (outcome_state o) = log built ++ gets ++ closing o.
Proof.
  intros Hinit Hr.
  apply init_Done_constructed in Hinit as (f & cx & cy & il & ir & _ & ->).
  destruct (constructed_build calib a f cx cy il ir s0)
    as (Hw & Hh & Hlr & Hext & Hsub & _).
  by apply thread_run.
Qed.

Lemma requested_queues_app l1 l2 :
  requested_queues (l1 ++ l2) = requested_queues l1 ++ requested_queues l2.
Proof. unfold requested_queues. by rewrite omap_app. Qed.

Lemma requested_queues_gets gets :
  Forall queue_get_event gets → requested_queues gets = [].
Proof.
  induction 1 as [|e l He _ IH]; [done|]. by destruct e.
Qed.

(** X10: the streams the pipeline declares and the queues the thread asks
    for do not match.  On a constructed instance with a supported height,
    wherever the thread ends or waits, the pipeline declares the four
    streams color_camera, disparity, rectified_left and rectified_right,
    and the thread has asked the device for six queues, named by the keys
    of [_nodes]: stereo, mono_left and mono_right are asked for and are no
    stream of the pipeline, and disparity is a stream that is never asked
    for. *)
Theorem X10_streams_and_queues calib a r s0 s1 mode inputs :
  __init__ calib a s0 = Done () s1 →
  preset_of_height (rgb_size a).2 = Some r →
  let s' := outcome_state (_target mode inputs s1) in
  stream_names (pipeline s')
    = ["color_camera"; "disparity"; "rectified_left"; "rectified_right"] ∧
  requested_queues (log s')
    = requested_queues (log s1) ++
      ["color_camera"; "stereo"; "mono_left"; "mono_right";
       "rectified_left"; "rectified_right"].
Proof.
  intros Hinit Hr s'.
  destruct (thread_run_constructed mode inputs calib a r s0 s1 Hinit Hr)
    as (gets & Hgets & Hp & _ & _ & Hlog).
  apply init_Done_constructed in Hinit as (f & cx & cy & il & ir & _ & ->).
  unfold s'. rewrite Hp, Hlog. split; [reflexivity|].
  rewrite !requested_queues_app, (requested_queues_gets gets Hgets).
  replace (requested_queues (closing _)) with (@nil string)
    by (by destruct (_target mode inputs _)).
  cbn [started set_log log with_stereo with_color].
  by rewrite requested_queues_app, !app_nil_r.
Qed.

(** X11: the pipeline the thread builds, from the arguments of the
    constructor.  Eight nodes: the color camera with the preset of the
    height and the video size [rgb_size], its output with
    [setBlocking(False)] and [setQueueSize(1)]; the two mono cameras, both
    at 720p whatever [mono_size] is; the stereo node with the three flags
    as given; and the three outputs of the stereo node, on which neither
    blocking nor queue size is set.  Left goes to left and right to right. *)
Theorem X11_pipeline_of_the_arguments calib a r s0 s1 mode inputs :
  __init__ calib a s0 = Done () s1 →
  preset_of_height (rgb_size a).2 = Some r →
  let s' := outcome_state (_target mode inputs s1) in
  pipeline s'
    = color_nodes (Some r) (Some (rgb_size a)) (Some false) (Some 1)
      ++ stereo_nodes (lr_check a) (extended_disparity a) (subpixel a) ∧
  links s'
    = [ mk_link 0 "video" 1 "input";
        mk_link 2 "out" 4 "left"; mk_link 3 "out" 4 "right";
        mk_link 4 "disparity" 5 "input";
        mk_link 4 "rectifiedLeft" 6 "input";
        mk_link 4 "rectifiedRight" 7 "input" ]%nat.
Proof.
  intros Hinit Hr s'.
  destruct (thread_run_constructed mode inputs calib a r s0 s1 Hinit Hr)
    as (gets & Hgets & Hp & Hl & _ & _).
  apply init_Done_constructed in Hinit as (f & cx & cy & il & ir & _ & ->).
  unfold s'. rewrite Hp, Hl. destruct (rgb_size a). split; reflexivity.
Qed.

(** X12: the device session of the thread.  On a constructed instance with
    a supported height the thread opens the device once, asks for the six
    queues, each with [maxSize=1] and [blocking=False], and from then on
    only calls [get()] on queues; when [_target] is left, by return or by an
    exception of the loop, closing the device is the last thing it has
    done, and while it waits in a [get()] the device is open. *)
Theorem X12_device_session calib a r s0 s1 mode inputs :
  __init__ calib a s0 = Done () s1 →
  preset_of_height (rgb_size a).2 = Some r →
  let o := _target mode inputs s1 in
  ∃ gets, Forall queue_get_event gets ∧
    log (outcome_state o)
      = log s1 ++ EvPipelineDeviceOpen
          :: map (λ k, EvGetOutputQueue k 1 false) camera_keys
          ++ gets ++ closing o.
Proof.
  intros Hinit Hr o.
  destruct (thread_run_constructed mode inputs calib a r s0 s1 Hinit Hr)
    as (gets & Hgets & _ & _ & _ & Hlog).
  exists gets. split; [done|]. fold o in Hlog. rewrite Hlog.
  cbn [started set_log log with_stereo with_color].
  by rewrite <- app_assoc.
Qed.

End ThreadRun.

(** ** The lock, the stop flag and a thread that runs dry *)

Section Blocking.
Context {num : Type} `{!Backend num}.
Implicit Types (s : state (num := num)).

(** X13: the lock around a pass.  However a pass of the loop ends, by
    completing or by an exception, [_data_lock] is free afterwards; it is
    held exactly when the pass is waiting, for the lock itself or inside a
    [get()]. *)
Theorem X13_lock_around_a_pass mode queues arrivals s :
  match iteration mode queues arrivals s with
  | Done _ s' | Raised _ s' => lock s' = false
  | Waiting _ s' => lock s' = true
  end.
Proof.
  unfold iteration, with_lock, acquire, release, finally, mbind, M_bind.
  destruct (lock s) eqn:Hlock; [exact Hlock|].
  pose proof (poll_all_lock mode arrivals queues (set_lock true s)) as Hpoll.
  by destruct (poll_all mode arrivals queues (set_lock true s)).
Qed.

Lemma getattr_bool_Done k b s :
  attrs s !! k = Some (VBool b) → getattr_bool k s = Done b s.
Proof. intros Hk. unfold getattr_bool, getattr, mbind, M_bind. by rewrite Hk. Qed.

(** With no frame left the pass waits at the first queue, the lock held. *)
Lemma iteration_dry s :
  lock s = false →
  iteration GetWaits camera_queues ∅ s = Waiting "color_camera" (set_lock true s).
Proof.
  intros Hlock. apply iteration_Waiting; [done|].
  destruct (poll_all_waits ∅ [] "color_camera" "color_camera"
              (tail camera_queues) (set_lock true s)) as (s' & Hpre & Hall);
    [apply Forall_nil_2 | apply lookup_empty |].
  cbn [poll_all] in Hpre. unfold mret, M_ret in Hpre. by simplify_eq.
Qed.

(** The loop of a thread that is not stopped, fed passes in which every
    queue is ready: when they are used up it waits in [get()] on the colour
    queue, the lock held, and no accessor slot has been lost. *)
Lemma loop_runs_dry inputs s :
  lock s = false →
  attrs s !! "_stopped" = Some (VBool false) →
  (∀ which, is_Some (attrs s !! slot_read which)) →
  Forall (λ arrivals, all_ready arrivals camera_queues) inputs →
  ∃ s', acquisition_loop GetWaits camera_queues inputs s
          = Waiting "color_camera" s' ∧
        lock s' = true ∧
        (∀ which, is_Some (attrs s' !! slot_read which)).
Proof.
  revert s. induction inputs as [|arrivals rest IH];
    intros s Hlock Hstop Hslots Hready; cbn [acquisition_loop].
  - rewrite (bind_Done _ _ _ _ _ (getattr_bool_Done "_stopped" false s Hstop)).
    exists (set_lock true s). split; [|split; [done | exact Hslots]].
    by rewrite (bind_Waiting _ _ _ _ _ (iteration_dry s Hlock)).
  - apply Forall_cons_1 in Hready as [Hnow Hrest].
    rewrite (bind_Done _ _ _ _ _ (getattr_bool_Done "_stopped" false s Hstop)).
    destruct (all_ready_camera arrivals Hnow)
      as (fc & fs & fl & fr & frl & frr & Hc & Hs & Hl & Hr & Hrl & Hrr).
    rewrite (bind_Done _ _ _ _ _
               (pass_received GetWaits arrivals fc fs fl fr frl frr s
                  Hlock Hc Hs Hl Hr Hrl Hrr)).
    apply IH; [done | | | done].
    + unfold received. cbn [attrs]. by lookups.
    + intros which. unfold received. cbn [attrs].
      rewrite !lookup_insert_is_Some'. repeat right. apply Hslots.
Qed.

(** X14: when the frames stop coming.  The thread of a constructed
    instance that has not been stopped, after any number of passes in which
    every queue delivered, waits in [get()] on the colour queue with
    [_data_lock] held (taking [get()] to wait for a message): from then on
    [compute_3d] waits for the lock, while every accessor still returns,
    since the accessors do not take it. *)
Theorem X14_thread_waits_holding_the_lock calib a r s0 s1 inputs :
  __init__ calib a s0 = Done () s1 →
  preset_of_height (rgb_size a).2 = Some r →
  Forall (λ arrivals, all_ready arrivals camera_queues) inputs →
  ∃ s', _target GetWaits inputs s1 = Waiting "color_camera" s' ∧
        lock s' = true ∧
        compute_3d s' = Waiting "_data_lock" s' ∧
        ∀ which, ∃ v, read which s' = Done v s'.
Proof.
  intros Hinit Hr Hready.
  apply init_Done_constructed in Hinit as (f & cx & cy & il & ir & _ & ->).
  destruct (constructed_build calib a f cx cy il ir s0)
    as (Hw & Hh & Hlr & Hext & Hsub & Hstop).
  rewrite (target_of_built GetWaits inputs a r _ Hw Hh Hlr Hext Hsub eq_refl Hr).
  destruct (loop_runs_dry inputs
              (started (rgb_size a).1 (rgb_size a).2 r (lr_check a)
                 (extended_disparity a) (subpixel a)
                 (constructed calib a f cx cy il ir s0)))
    as (s' & Hloop & Hlock & Hslots); [done | exact Hstop | | done |].
  { intros which.
    pose proof (constructed_reads_none calib a f cx cy il ir s0 which) as Hnone.
    unfold started, with_stereo, with_color, set_log. cbn [attrs].
    destruct (attrs (constructed calib a f cx cy il ir s0) !! slot_read which)
      eqn:Hslot; [done|].
    destruct which; unfold read, rgb_frame, disparity, left_frame, right_frame,
      rectified_left_frame, rectified_right_frame, getattr in Hnone;
      cbn [slot_read] in Hslot; by rewrite Hslot in Hnone. }
  exists s'. unfold finally. rewrite Hloop.
  split; [done|]. split; [done|]. split; [by apply compute_3d_locked|].
  intros which. destruct (Hslots which) as [v Hv]. exists v. by apply read_slot.
Qed.

(** X15: the stop flag is final.  Once [_stopped] is set, no run of the
    thread body, no [compute_3d], no [stop] and no accessor clears it. *)
Theorem X15_stop_flag_is_final calls s :
  attrs s !! "_stopped" = Some (VBool true) →
  attrs (after_all calls s) !! "_stopped" = Some (VBool true).
Proof.
  revert s. induction calls as [|c calls IH]; intros s Hstop; [done|].
  unfold after_all in *. cbn [foldl]. apply IH.
  destruct c as [mode inputs| | |which]; cbn [after].
  - rewrite target_unchanged; [done|]. unfold loop_slots.
    rewrite !not_elem_of_cons. repeat split; try done. apply not_elem_of_nil.
  - by rewrite compute_3d_attrs.
  - unfold stop, setattr. cbn [outcome_state set_attrs attrs].
    by rewrite lookup_insert_eq.
  - by rewrite read_attrs.
Qed.

(** X16: a thread that finds the flag set.  On a constructed instance with
    a supported height on which [_stopped] has been set, the thread body
    still builds the pipeline, opens the device and asks for the six
    queues; it then leaves the loop at once, closes the device and returns:
    no [get()] is called and no attribute is assigned. *)
Theorem X16_thread_of_a_stopped_instance calib a r s0 s1 mode inputs :
  __init__ calib a s0 = Done () s1 →
  preset_of_height (rgb_size a).2 = Some r →
  ∃ s', _target mode inputs (after Stop s1) = Done () s' ∧
        attrs s' = attrs (after Stop s1) ∧
        log s' = log s1 ++ EvPipelineDeviceOpen
                   :: map (λ k, EvGetOutputQueue k 1 false) camera_keys
                   ++ [EvPipelineDeviceClose].
Proof.
  intros Hinit Hr.
  apply init_Done_constructed in Hinit as (f & cx & cy & il & ir & _ & ->).
  destruct (constructed_build calib a f cx cy il ir s0)
    as (Hw & Hh & Hlr & Hext & Hsub & _).
  set (s1 := constructed calib a f cx cy il ir s0) in *.
  assert (∀ k, k ≠ "_stopped" → attrs (after Stop s1) !! k = attrs s1 !! k) as Hsame.
  { intros k Hk. unfold after, stop, setattr. cbn [outcome_state set_attrs attrs].
    by rewrite lookup_insert_ne. }
  rewrite (target_of_built mode inputs a r (after Stop s1)); first last;
    try (rewrite Hsame; done); try done.
  set (built := started _ _ _ _ _ _ _).
  assert (acquisition_loop mode camera_queues inputs built = Done () built) as Hloop.
  { assert (getattr_bool "_stopped" built = Done true built) as Hflag.
    { apply getattr_bool_Done. unfold built, started, with_stereo, with_color,
        set_log, after, stop, setattr. cbn [outcome_state set_attrs attrs].
      by rewrite lookup_insert_eq. }
    destruct inputs; cbn [acquisition_loop];
      by rewrite (bind_Done _ _ _ _ _ Hflag). }
  exists (set_log (λ l, l ++ [EvPipelineDeviceClose]) built).
  unfold finally. rewrite Hloop. split; [done|]. split; [done|].
  unfold built, started, set_log. cbn [log with_stereo with_color after stop
    setattr outcome_state set_attrs].
  by rewrite <- app_assoc.
Qed.

End Blocking.

(** ** The display thread *)

Section Display.
Context {num : Type} `{!Backend num}.
Implicit Types (s : state (num := num)).

Lemma looks_only_ret {A} (a : A) : looks_only (num := num) (mret a).
Proof. intros s. left. by exists a. Qed.

Lemma looks_only_bind {A B} (m : M A) (k : A → M B) :
  looks_only (num := num) m → (∀ a, looks_only (k a)) → looks_only (m ≫= k).
Proof.
  intros Hm Hk s. unfold mbind, M_bind.
  destruct (Hm s) as [[a ->] | [e ->]]; [apply Hk | right; by exists e].
Qed.

Lemma looks_only_getattr k : looks_only (num := num) (getattr k).
Proof.
  intros s. unfold getattr.
  destruct (attrs s !! k) as [v|]; [left; by exists v | right; by eexists].
Qed.

Lemma looks_only_getattr_bool k : looks_only (num := num) (getattr_bool k).
Proof.
  apply looks_only_bind; [apply looks_only_getattr | intros v].
  destruct v; first [apply looks_only_ret | intros s; right; by eexists].
Qed.

Lemma looks_only_imshow window attr :
  looks_only (num := num) (imshow_if_present window attr).
Proof.
  apply looks_only_bind; [apply looks_only_getattr | intros v].
  destruct (is_none v); [apply looks_only_ret|].
  apply looks_only_bind; [apply looks_only_getattr | intros; apply looks_only_ret].
Qed.

Lemma looks_only_display_pass : looks_only (num := num) display_pass.
Proof.
  unfold display_pass.
  repeat (apply looks_only_bind; [apply looks_only_imshow | intros ?]).
  apply looks_only_ret.
Qed.

Global Instance still_assigned_preorder k : PreOrder (still_assigned (num := num) k).
Proof.
  split; [intros s Hs; exact Hs | intros s1 s2 s3 H12 H23 H1; by apply H23, H12].
Qed.

Lemma target_assigned k mode inputs :
  keeps (still_assigned k) (_target (num := num) mode inputs).
Proof.
  apply (keeps_target (still_assigned k) (λ _, True) (λ _, True));
    try done; try (by intros; intros ?).
  - intros n v s _ Hk. cbn [set_attrs attrs].
    rewrite lookup_insert_is_Some'. by right.
  - by apply Forall_forall.
Qed.

(** An attribute that is assigned stays assigned, whatever is called. *)
Lemma after_assigned k c s :
  is_Some (attrs s !! k) → is_Some (attrs (after c s) !! k).
Proof.
  destruct c as [mode inputs| | |which]; cbn [after].
  - apply target_assigned.
  - by rewrite compute_3d_attrs.
  - intros Hk. unfold stop, setattr. cbn [outcome_state set_attrs attrs].
    rewrite lookup_insert_is_Some'. by right.
  - by rewrite read_attrs.
Qed.

Lemma after_all_assigned k calls s :
  is_Some (attrs s !! k) → is_Some (attrs (after_all calls s) !! k).
Proof.
  revert s. induction calls as [|c calls IH]; intros s Hk; [done|].
  unfold after_all in *. cbn [foldl]. by apply IH, after_assigned.
Qed.

Lemma imshow_if_present_value window attr v s :
  attrs s !! attr = Some v →
  imshow_if_present window attr s
    = Done (if is_none v then [] else [Imshow window v]) s.
Proof.
  intros Hv. unfold imshow_if_present, getattr, mbind, M_bind. rewrite Hv.
  destruct (is_none v); [done|]. by rewrite Hv.
Qed.

(** One pass over an instance whose other four frame attributes are
    [None]. *)
Lemma display_pass_left_right l r s :
  attrs s !! "_rgb_frame" = Some VNone →
  attrs s !! "_depth_frame" = Some VNone →
  attrs s !! "_left_frame" = Some l →
  attrs s !! "_right_frame" = Some r →
  attrs s !! "_rectified_left_frame" = Some VNone →
  attrs s !! "_rectified_right_frame" = Some VNone →
  display_pass s = Done (shown_left_right l r) s.
Proof.
  intros Hrgb Hdepth Hl Hr Hrl Hrr. unfold display_pass.
  rewrite (bind_Done _ _ _ _ _ (imshow_if_present_value "rgb" _ _ s Hrgb)).
  rewrite (bind_Done _ _ _ _ _ (imshow_if_present_value "depth" _ _ s Hdepth)).
  rewrite (bind_Done _ _ _ _ _ (imshow_if_present_value "left" _ _ s Hl)).
  rewrite (bind_Done _ _ _ _ _ (imshow_if_present_value "right" _ _ s Hr)).
  rewrite (bind_Done _ _ _ _ _ (imshow_if_present_value "rectified left" _ _ s Hrl)).
  rewrite (bind_Done _ _ _ _ _ (imshow_if_present_value "rectified right" _ _ s Hrr)).
  reflexivity.
Qed.

(** X17: what the display thread can show.  On a constructed instance,
    after any runs of the thread body, [compute_3d] calls, [stop] calls and
    accessor reads, every pass of [_display] shows at most the windows
    left and right, with the frames [left_frame] and [right_frame] return,
    and then calls [waitKey(1)]: the windows rgb, depth, rectified left and
    rectified right never open, as the attributes they show stay [None]. *)
Theorem X17_display_shows_left_and_right calib a s0 s1 :
  __init__ calib a s0 = Done () s1 →
  ∀ calls passes, ∃ l r,
    read LeftFrame (after_all calls s1) = Done l (after_all calls s1) ∧
    read RightFrame (after_all calls s1) = Done r (after_all calls s1) ∧
    _display passes (after_all calls s1)
      = Done (concat (replicate passes (shown_left_right l r))) (after_all calls s1).
Proof.
  intros Hinit calls passes.
  pose proof (X := init_Done_constructed calib a s0 s1 Hinit).
  destruct X as (f & cx & cy & il & ir & _ & ->).
  set (s1 := constructed calib a f cx cy il ir s0).
  assert (∀ k v, k ∉ "_stopped" :: loop_slots → attrs s1 !! k = Some v →
                 attrs (after_all calls s1) !! k = Some v) as Hkept.
  { intros k v Hk Hv. by rewrite after_all_unchanged. }
  assert (∀ k, k ∈ ["_rgb_frame"; "_depth_frame"; "_rectified_left_frame";
                    "_rectified_right_frame"] →
               attrs (after_all calls s1) !! k = Some VNone) as Hnone.
  { intros k Hk. apply Hkept.
    - unfold loop_slots. rewrite !elem_of_cons, elem_of_nil in Hk.
      rewrite !not_elem_of_cons.
      destruct Hk as [-> | [-> | [-> | [-> | []]]]];
        repeat split; try done; apply not_elem_of_nil.
    - unfold s1, constructed. cbn [attrs].
      rewrite !elem_of_cons, elem_of_nil in Hk.
      destruct Hk as [-> | [-> | [-> | [-> | []]]]]; by lookups. }
  assert (attrs (after_all calls s1) !! "_display_stopped" = Some (VBool false))
    as Hflag.
  { apply Hkept.
    - unfold loop_slots. rewrite !not_elem_of_cons.
      repeat split; try done; apply not_elem_of_nil.
    - unfold s1, constructed. cbn [attrs]. by lookups. }
  destruct (after_all_assigned "_left_frame" calls s1) as [l Hl].
  { unfold s1, constructed. cbn [attrs]. lookups. by eexists. }
  destruct (after_all_assigned "_right_frame" calls s1) as [r Hr].
  { unfold s1, constructed. cbn [attrs]. lookups. by eexists. }
  exists l, r. split; [by apply read_slot|]. split; [by apply read_slot|].
  assert (display_pass (after_all calls s1)
          = Done (shown_left_right l r) (after_all calls s1)) as Hpass.
  { apply display_pass_left_right; try done; apply Hnone;
      rewrite !elem_of_cons; tauto. }
  induction passes as [|passes IH]; [done|]. cbn [_display replicate concat].
  rewrite (bind_Done _ _ _ _ _ (getattr_bool_Done "_display_stopped" false _ Hflag)).
  rewrite (bind_Done _ _ _ _ _ Hpass).
  by rewrite (bind_Done _ _ _ _ _ IH).
Qed.

(** X18: the display thread only looks.  In any state, for any number of
    passes, [_display] returns or raises in the state it started from: it
    assigns no attribute, asks nothing of the device, does not take
    [_data_lock] and never waits, whether the lock is held or not. *)
Theorem X18_display_only_looks passes s :
  (∃ shown, _display passes s = Done shown s) ∨
  (∃ e, _display passes s = Raised e s).
Proof.
  revert s. change (looks_only (num := num) (_display passes)).
  induction passes as [|passes IH]; cbn [_display]; [apply looks_only_ret|].
  apply looks_only_bind; [apply looks_only_getattr_bool | intros [|]];
    [apply looks_only_ret|].
  apply looks_only_bind; [apply looks_only_display_pass | intros shown].
  apply looks_only_bind; [exact IH | intros later; apply looks_only_ret].
Qed.

End Display.

(** ** The further properties on the exact backend *)

Lemma camera_constructed :
  __init__ (calibration (15 # 2)) default_args empty_state = Done () camera.
Proof. vm_compute. reflexivity. Defined.

Lemma next_arrive_ready : all_ready next_arrive camera_queues.
Proof.
  unfold all_ready, camera_queues, camera_keys. cbn [map].
  repeat (apply Forall_cons_2; [intros q [= <-]; eexists; vm_compute; reflexivity|]).
  apply Forall_nil_2.
Defined.

(** X8 on the running instance: after a pass with the frames [[3]] and
    [[4]] and one with [[13]] and [[14]], the accessors return the
    latter. *)
Lemma X8_left_right_latest_frame_witness :
  lock running = false ∧
  next_arrive !! "mono_left" = Some [[13]] ∧
  next_arrive !! "mono_right" = Some [[14]] ∧
  ∃ s1 s2,
    iteration GetWaits camera_queues all_arrive running = Done () s1 ∧
    iteration GetWaits camera_queues next_arrive s1 = Done () s2 ∧
    read LeftFrame s2 = Done (VFrame [[13]]) s2 ∧
    read RightFrame s2 = Done (VFrame [[14]]) s2.
Proof.
  split; [reflexivity|]. split; [reflexivity|]. split; [reflexivity|].
  exact (X8_left_right_latest_frame GetWaits all_arrive next_arrive [[13]] [[14]]
           running eq_refl all_arrive_ready next_arrive_ready eq_refl eq_refl).
Defined.

Lemma X9_pass_takes_one_frame_per_queue_witness :
  lock running = false ∧
  ∃ s', iteration GetWaits camera_queues all_arrive running = Done () s' ∧
        log s' = log running ++ map EvQueueGet (omap snd camera_queues).
Proof.
  split; [reflexivity|].
  exact (X9_pass_takes_one_frame_per_queue GetWaits camera_queues all_arrive
           running eq_refl all_arrive_ready).
Defined.

Lemma X10_streams_and_queues_witness :
  preset_of_height (rgb_size default_args).2 = Some THE_1080_P ∧
  let s' := outcome_state (_target GetWaits [all_arrive] camera) in
  stream_names (pipeline s')
    = ["color_camera"; "disparity"; "rectified_left"; "rectified_right"] ∧
  requested_queues (log s')
    = requested_queues (log camera) ++
      ["color_camera"; "stereo"; "mono_left"; "mono_right";
       "rectified_left"; "rectified_right"].
Proof.
  split; [reflexivity|].
  exact (X10_streams_and_queues _ _ THE_1080_P _ _ GetWaits [all_arrive]
           camera_constructed eq_refl).
Defined.

Lemma X11_pipeline_of_the_arguments_witness :
  preset_of_height (rgb_size default_args).2 = Some THE_1080_P ∧
  let s' := outcome_state (_target GetWaits [all_arrive] camera) in
  pipeline s'
    = color_nodes (Some THE_1080_P) (Some (1920, 1080)) (Some false) (Some 1)
      ++ stereo_nodes true true true ∧
  links s'
    = [ mk_link 0 "video" 1 "input";
        mk_link 2 "out" 4 "left"; mk_link 3 "out" 4 "right";
        mk_link 4 "disparity" 5 "input";
        mk_link 4 "rectifiedLeft" 6 "input";
        mk_link 4 "rectifiedRight" 7 "input" ]%nat.
Proof.
  split; [reflexivity|].
  exact (X11_pipeline_of_the_arguments _ _ THE_1080_P _ _ GetWaits [all_arrive]
           camera_constructed eq_refl).
Defined.

Lemma X12_device_session_witness :
  preset_of_height (rgb_size default_args).2 = Some THE_1080_P ∧
  let o := _target GetReturnsNone [all_arrive] camera in
  ∃ gets, Forall queue_get_event gets ∧
    log (outcome_state o)
      = log camera ++ EvPipelineDeviceOpen
          :: map (λ k, EvGetOutputQueue k 1 false) camera_keys
          ++ gets ++ closing o.
Proof.
  split; [reflexivity|].
  exact (X12_device_session _ _ THE_1080_P _ _ GetReturnsNone [all_arrive]
           camera_constructed eq_refl).
Defined.

Lemma X14_thread_waits_holding_the_lock_witness :
  Forall (λ arrivals, all_ready arrivals camera_queues) [all_arrive; next_arrive] ∧
  ∃ s', _target GetWaits [all_arrive; next_arrive] camera
          = Waiting "color_camera" s' ∧
        lock s' = true ∧
        compute_3d s' = Waiting "_data_lock" s' ∧
        ∀ which, ∃ v, read which s' = Done v s'.
Proof.
  assert (Forall (λ arrivals, all_ready arrivals camera_queues)
            [all_arrive; next_arrive]) as Hready
    by (apply Forall_cons_2; [exact all_arrive_ready|];
        apply Forall_cons_2; [exact next_arrive_ready | apply Forall_nil_2]).
  split; [exact Hready|].
  exact (X14_thread_waits_holding_the_lock _ _ THE_1080_P _ _
           [all_arrive; next_arrive] camera_constructed eq_refl Hready).
Defined.

Lemma X15_stop_flag_is_final_witness :
  attrs (after Stop camera) !! "_stopped" = Some (VBool true) ∧
  attrs (after_all [Target GetWaits [all_arrive]; Compute3d; Read LeftFrame]
           (after Stop camera)) !! "_stopped" = Some (VBool true).
Proof.
  assert (attrs (after Stop camera) !! "_stopped" = Some (VBool true)) as Hstop
    by (vm_compute; reflexivity).
  split; [exact Hstop|].
  exact (X15_stop_flag_is_final
           [Target GetWaits [all_arrive]; Compute3d; Read LeftFrame]
           (after Stop camera) Hstop).
Defined.

Lemma X16_thread_of_a_stopped_instance_witness :
  preset_of_height (rgb_size default_args).2 = Some THE_1080_P ∧
  ∃ s', _target GetWaits [all_arrive] (after Stop camera) = Done () s' ∧
        attrs s' = attrs (after Stop camera) ∧
        log s' = log camera ++ EvPipelineDeviceOpen
                   :: map (λ k, EvGetOutputQueue k 1 false) camera_keys
                   ++ [EvPipelineDeviceClose].
Proof.
  split; [reflexivity|].
  exact (X16_thread_of_a_stopped_instance _ _ THE_1080_P _ _ GetWaits [all_arrive]
           camera_constructed eq_refl).
Defined.

Lemma X17_display_shows_left_and_right_witness :
  ∃ l r,
    read LeftFrame (after_all [Target GetWaits [all_arrive]] camera)
      = Done l (after_all [Target GetWaits [all_arrive]] camera) ∧
    read RightFrame (after_all [Target GetWaits [all_arrive]] camera)
      = Done r (after_all [Target GetWaits [all_arrive]] camera) ∧
    _display 2 (after_all [Target GetWaits [all_arrive]] camera)
      = Done (concat (replicate 2 (shown_left_right l r)))
          (after_all [Target GetWaits [all_arrive]] camera).
Proof.
  exact (X17_display_shows_left_and_right _ _ _ _ camera_constructed
           [Target GetWaits [all_arrive]] 2%nat).
Defined.
